(** * Scagaire: species-specific filtering of AMR gene predictions

    A shallow embedding of the parsing, filtering and summarising core of the
    scagaire package, and the properties of its design description that can
    be settled on it.

    Conventions of the embedding.
    - A results file or knowledge-base file is represented by the rows that
      [csv.reader] yields for it (a list of rows, each a list of fields); the
      delimiter sniffing of the [csv] module is library code and is not
      modelled.
    - A Python exception is a value of [exn]; a computation that may raise
      lives in the [result] monad.
    - A result object is its class tag together with its attribute
      dictionary. Every result class initialises all its data attributes to
      [None]; an attribute bound to [None] is a key absent from [attrs]. *)

From Stdlib Require Import ZArith String Ascii.
From stdpp Require Import base option list sorting strings gmap pretty.

Open Scope string_scope.

(** ** Exceptions and the error monad *)

Inductive exn : Set :=
| IndexError
| TypeError
| ValueError
| StopIteration.

Inductive result (A : Type) : Type :=
| Ok (a : A)
| Raise (e : exn).

Arguments Ok {A} a.
Arguments Raise {A} e.

#[global] Instance result_ret : MRet result := fun A a => Ok a.
#[global] Instance result_bind : MBind result :=
  fun A B f m => match m with Ok a => f a | Raise e => Raise e end.
#[global] Instance result_fmap : FMap result :=
  fun A B f m => match m with Ok a => Ok (f a) | Raise e => Raise e end.

(** [xs[i]] on a Python list, for a non-negative index. *)
Definition index {A} (xs : list A) (i : nat) : result A :=
  match xs !! i with
  | Some x => Ok x
  | None => Raise IndexError
  end.

(** [sep.join(items)]: every item must be a [str]; an item that is [None]
    raises [TypeError]. *)
Fixpoint all_str (items : list (option string)) : option (list string) :=
  match items with
  | [] => Some []
  | Some s :: rest => cons s <$> all_str rest
  | None :: _ => None
  end.

Definition join (sep : string) (items : list (option string)) : result string :=
  match all_str items with
  | Some strs => Ok (String.concat sep strs)
  | None => Raise TypeError
  end.

(** ** Result objects (AbricateResult097, AbricateResult098, StaramrResult,
       RgiResult) *)

Inductive ResultClass : Set :=
| AbricateResult097
| AbricateResult098
| StaramrResult
| RgiResult.

Record AmrResult : Type := {
  result_class : ResultClass;
  attrs : gmap string string;
  header : list string;
  delimiter : string
}.

(** The tab and newline strings of the Python source. *)
Definition TAB : string := String "009"%char EmptyString.
Definition NL : string := String "010"%char EmptyString.

(** [__init__(self, header)]: every data attribute is [None]. *)
Definition new_result (c : ResultClass) (hdr : list string) : AmrResult :=
  {| result_class := c; attrs := ∅; header := hdr; delimiter := TAB |}.

Definition getattr (r : AmrResult) (name : string) : option string :=
  attrs r !! name.

Definition setattr (r : AmrResult) (name value : string) : AmrResult :=
  {| result_class := result_class r;
     attrs := <[name := value]> (attrs r);
     header := header r;
     delimiter := delimiter r |}.

Definition gene (r : AmrResult) : option string := getattr r "gene".

(** The attributes each class joins in [__str__], in the order written. *)
Definition str_fields (c : ResultClass) : list string :=
  match c with
  | AbricateResult097 =>
      ["file"; "sequence"; "start"; "end"; "gene"; "coverage";
       "coverage_map"; "gaps"; "perc_coverage"; "perc_identity";
       "database"; "accession"; "product"]
  | AbricateResult098 =>
      ["file"; "sequence"; "start"; "end"; "strand"; "gene"; "coverage";
       "coverage_map"; "gaps"; "perc_coverage"; "perc_identity";
       "database"; "accession"; "product"; "resistance"]
  | StaramrResult =>
      ["file"; "gene"; "resistance"; "perc_identity"; "perc_coverage";
       "coverage"; "sequence"; "start"; "end"; "accession"]
  | RgiResult =>
      ["orf_id"; "contig"; "start"; "end"; "orientation"; "cut_off";
       "pass_bitscore"; "best_hit_bitscore"; "gene"; "best_identities";
       "aro"; "model_type"; "snps_in_best_hit_aro"; "other_snps";
       "drug_class"; "resistance_mechanism"; "amr_gene_family";
       "predicted_dna"; "predicted_protein"; "card_protein_sequence";
       "percentage_length_of_reference_sequence"; "id"; "model_id";
       "nudged"; "note"]
  end.

(** [__str__]: [self.delimiter.join([self.file, ...])]. *)
Definition str (r : AmrResult) : result string :=
  join (delimiter r) (getattr r <$> str_fields (result_class r)).

(** ** AmrParser and its Abricate 0.9.7 subclass *)

Record AmrParser : Type := {
  minimum_num_columns : nat;
  default_header : list string;
  parser_header : list string;
  column_to_variable_mapping : gmap string string;
  results : list AmrResult
}.

(** [AmrParser.is_valid]: the loop over [enumerate(self.header)], started at
    position [i]. *)
Fixpoint is_valid_from (expected : list string) (i : nat) (hdr : list string)
  : result bool :=
  match hdr with
  | [] => Ok true
  | h :: rest =>
      d ← index expected i;
      if bool_decide (h ≠ d) then Ok false else is_valid_from expected (S i) rest
  end.

Definition is_valid (self : AmrParser) : result bool :=
  is_valid_from (default_header self) 0 (parser_header self).

(** [AmrParser.get_header]: [file_contents.pop(0)], returning the popped row
    and what is left of the list. *)
Definition get_header (file_contents : list (list string))
  : result (list string * list (list string)) :=
  match file_contents with
  | [] => Raise IndexError
  | first :: rest => Ok (first, rest)
  end.

(** [Abricate097.populate_results], inner loop: [for index, value in
    enumerate(row)], started at position [index]. *)
Fixpoint map_columns (self : AmrParser) (index0 : nat) (row : list string)
    (ab_result : AmrResult) : result AmrResult :=
  match row with
  | [] => Ok ab_result
  | value :: rest =>
      column ← index (parser_header self) index0;
      match column_to_variable_mapping self !! column with
      | Some variable_name =>
          map_columns self (S index0) rest (setattr ab_result variable_name value)
      | None => map_columns self (S index0) rest ab_result
      end
  end.

(** [Abricate097.populate_results], outer loop: [for row in file_contents];
    [cls] is the result class the parser instantiates. *)
Fixpoint populate_rows (cls : ResultClass) (self : AmrParser)
    (file_contents : list (list string)) : result (list AmrResult) :=
  match file_contents with
  | [] => Ok []
  | row :: rest =>
      if bool_decide (length row < minimum_num_columns self) then
        populate_rows cls self rest
      else
        ab_result ← map_columns self 0 row (new_result cls (default_header self));
        others ← populate_rows cls self rest;
        Ok (ab_result :: others)
  end.

(** [populate_results]: reads the file, replaces [self.header] by the first
    row and parses the rest; returns the updated parser and the records.
    [input_file] stands for the rows that [read_file_multi_delimiters]
    returned; a file on which the sniffing of the [csv] module fails (an
    empty file, a first line without a delimiter) raises there and has no
    such rows. *)
Definition populate_results (cls : ResultClass) (self : AmrParser)
    (input_file : list (list string)) : result (AmrParser * list AmrResult) :=
  '(hdr, file_contents) ← get_header input_file;
  let self' :=
    {| minimum_num_columns := minimum_num_columns self;
       default_header := default_header self;
       parser_header := hdr;
       column_to_variable_mapping := column_to_variable_mapping self;
       results := results self |} in
  abricate_results ← populate_rows cls self' file_contents;
  Ok (self', abricate_results).

(** A dialect: the constants a parser class sets in [__init__] and the result
    class it instantiates. *)
Record Dialect : Type := {
  d_minimum_num_columns : nat;
  d_default_header : list string;
  d_mapping : list (string * string);
  d_class : ResultClass
}.

(** The body shared by the parser constructors: set the constants, with
    [self.header = self.default_header], then
    [self.results = self.populate_results()]. *)
Definition new_parser (d : Dialect) (input_file : list (list string))
  : result AmrParser :=
  let self :=
    {| minimum_num_columns := d_minimum_num_columns d;
       default_header := d_default_header d;
       parser_header := d_default_header d;
       column_to_variable_mapping := list_to_map (d_mapping d);
       results := [] |} in
  '(self', rs) ← populate_results (d_class d) self input_file;
  Ok {| minimum_num_columns := minimum_num_columns self';
        default_header := default_header self';
        parser_header := parser_header self';
        column_to_variable_mapping := column_to_variable_mapping self';
        results := rs |}.

Definition Abricate097_dialect : Dialect :=
  {| d_minimum_num_columns := 13;
     d_default_header :=
       ["#FILE"; "SEQUENCE"; "START"; "END"; "GENE"; "COVERAGE";
        "COVERAGE_MAP"; "GAPS"; "%COVERAGE"; "%IDENTITY"; "DATABASE";
        "ACCESSION"; "PRODUCT"];
     d_mapping :=
       [("#FILE", "file"); ("SEQUENCE", "sequence"); ("START", "start");
        ("END", "end"); ("GENE", "gene"); ("COVERAGE", "coverage");
        ("COVERAGE_MAP", "coverage_map"); ("GAPS", "gaps");
        ("%COVERAGE", "perc_coverage"); ("%IDENTITY", "perc_identity");
        ("DATABASE", "database"); ("ACCESSION", "accession");
        ("PRODUCT", "product")];
     d_class := AbricateResult097 |}.

(** [Abricate097(input_file, verbose)]. *)
Definition Abricate097 (input_file : list (list string)) : result AmrParser :=
  new_parser Abricate097_dialect input_file.


(** Modelled from the spec: the parser classes Abricate098, Staramr and Rgi
    are imported by IdentifyResults, but their modules are missing from the
    package.
    Following the description of the dialect parsers (each variant carries
    an expected header, a column-to-field mapping and a minimum column
    count, and shares the validation and row-walking code), each is the
    constructor body of Abricate097 run on its own constants. AbricateCurrent
    is "AbricateLegacy fields plus strand and resistance (15 fields)", in the
    order AbricateResult098 prints them. *)
Definition Abricate098_dialect : Dialect :=
  {| d_minimum_num_columns := 15;
     d_default_header :=
       ["#FILE"; "SEQUENCE"; "START"; "END"; "STRAND"; "GENE"; "COVERAGE";
        "COVERAGE_MAP"; "GAPS"; "%COVERAGE"; "%IDENTITY"; "DATABASE";
        "ACCESSION"; "PRODUCT"; "RESISTANCE"];
     d_mapping :=
       [("#FILE", "file"); ("SEQUENCE", "sequence"); ("START", "start");
        ("END", "end"); ("STRAND", "strand"); ("GENE", "gene");
        ("COVERAGE", "coverage"); ("COVERAGE_MAP", "coverage_map");
        ("GAPS", "gaps"); ("%COVERAGE", "perc_coverage");
        ("%IDENTITY", "perc_identity"); ("DATABASE", "database");
        ("ACCESSION", "accession"); ("PRODUCT", "product");
        ("RESISTANCE", "resistance")];
     d_class := AbricateResult098 |}.

(** Modelled from the spec: the constants of the absent Staramr parser. The
    column titles are the ten field names the description lists for the
    StarAmr shape ("file, gene, resistance, percent_identity,
    percent_coverage, coverage, sequence, start, end, accession"), each
    mapped to the StaramrResult attribute that holds it. *)
Definition Staramr_dialect : Dialect :=
  {| d_minimum_num_columns := 10;
     d_default_header :=
       ["file"; "gene"; "resistance"; "percent_identity"; "percent_coverage";
        "coverage"; "sequence"; "start"; "end"; "accession"];
     d_mapping :=
       [("file", "file"); ("gene", "gene"); ("resistance", "resistance");
        ("percent_identity", "perc_identity");
        ("percent_coverage", "perc_coverage"); ("coverage", "coverage");
        ("sequence", "sequence"); ("start", "start"); ("end", "end");
        ("accession", "accession")];
     d_class := StaramrResult |}.

(** Modelled from the spec: the constants of the absent Rgi parser. The
    description names the Rgi fields only in part and counts 24 of them,
    whereas the RgiResult class prints 25 attributes; the real column titles
    are unknown. The stand-in below takes the 25 attribute names of
    RgiResult as column titles, each mapped to itself. It serves only as a
    fourth parser to run the auto-detector on files in other formats; no
    property below relies on what it does on an Rgi file. *)
Definition Rgi_dialect : Dialect :=
  {| d_minimum_num_columns := length (str_fields RgiResult);
     d_default_header := str_fields RgiResult;
     d_mapping := (fun a => (a, a)) <$> str_fields RgiResult;
     d_class := RgiResult |}.

Definition Abricate098 (input_file : list (list string)) : result AmrParser :=
  new_parser Abricate098_dialect input_file.
Definition Staramr (input_file : list (list string)) : result AmrParser :=
  new_parser Staramr_dialect input_file.
Definition Rgi (input_file : list (list string)) : result AmrParser :=
  new_parser Rgi_dialect input_file.

(** ** IdentifyResults *)

Module IdentifyResults.
Section get_results.
  (** The three parser constructors that are not in the sources. *)
Variables Abricate098 Staramr Rgi : list (list string) -> result AmrParser.

Definition get_results (input_file : list (list string))
      (results_type : option string) : result (list AmrResult) :=
    a ← Abricate098 input_file;
    a_valid ← is_valid a;
    if (a_valid : bool) then Ok (results a) else
    a7 ← Abricate097 input_file;
    a7_valid ← is_valid a7;
    if (a7_valid : bool) || bool_decide (results_type = Some "abricate")
    then Ok (results a7) else
    s ← Staramr input_file;
    s_valid ← is_valid s;
    if (s_valid : bool) || bool_decide (results_type = Some "staramr")
    then Ok (results s) else
    r ← Rgi input_file;
    r_valid ← is_valid r;
    if (r_valid : bool) || bool_decide (results_type = Some "rgi")
    then Ok (results r) else
    Ok [].
End get_results.
End IdentifyResults.

(** ** SpeciesGenes and SpeciesToGenes *)

Record SpeciesGenes : Type := {
  sg_species : string;
  sg_gene : string;
  sg_occurances : Z;
  sg_database_name : string
}.

Module SpeciesToGenes.
Section populate.
  (** Python's [int()] on a string: [None] stands for [ValueError]. *)
Variable int : string -> option Z.

Definition minimum_num_columns : nat := 3.

Definition to_int (s : string) : result Z :=
    match int s with
    | Some n => Ok n
    | None => Raise ValueError
    end.

  (** [read_file_multi_delimiters]: [next(bnreader)] drops the header row. *)
Definition read_file_multi_delimiters (input_file : list (list string))
    : result (list (list string)) :=
    match input_file with
    | [] => Raise StopIteration
    | _ :: file_contents => Ok file_contents
    end.

  (** The loop of [populate] over [file_contents]. *)
Fixpoint populate_rows (file_contents : list (list string))
    : result (list SpeciesGenes) :=
    match file_contents with
    | [] => Ok []
    | row :: rest =>
        if bool_decide (length row < minimum_num_columns) then
          populate_rows rest
        else
          species ← index row 0;
          gene ← index row 1;
          occurances ← index row 2 ≫= to_int;
          database_name ← index row 4;
          others ← populate_rows rest;
          Ok ({| sg_species := species; sg_gene := gene;
                 sg_occurances := occurances;
                 sg_database_name := database_name |} :: others)
    end.

Definition populate (input_file : list (list string))
    : result (list SpeciesGenes) :=
    read_file_multi_delimiters input_file ≫= populate_rows.
End populate.

  (** Code-point order on strings, the order [sorted] uses. *)
Definition str_le (a b : string) : Prop := String.leb a b = true.

#[global] Instance str_le_dec a b : Decision (str_le a b).
  Proof. unfold str_le. apply _. Defined.

  (** [sorted(list(set(...)))]. *)
Definition sorted_set (xs : list string) : list string :=
    merge_sort str_le (remove_dups xs).

Definition all_species (species_to_genes : list SpeciesGenes) : list string :=
    sorted_set (sg_species <$> species_to_genes).

Definition filter_by_species (species_to_genes : list SpeciesGenes)
      (query database_name : string) : list SpeciesGenes :=
    filter (fun s => sg_species s = query /\ sg_database_name s = database_name)
           species_to_genes.
End SpeciesToGenes.

(** ** FilterResults *)

Module FilterResults.
Record t : Type := {
    results_filename : list (list string);
    database_filename : list (list string);
    minimum_occurances : Z;
    database_name : string;
    results_type : option string
  }.

  (** [{ g.gene: g.occurances for g in species_genes
         if g.occurances >= minimum_occurances }] *)
Definition genes_to_occurances (minimum : Z) (species_genes : list SpeciesGenes)
    : gmap string Z :=
    foldl (fun d g =>
             if bool_decide (sg_occurances g >= minimum)%Z
             then <[sg_gene g := sg_occurances g]> d
             else d)
          ∅ species_genes.

  (** [key in d] for a key that is a [str] or [None]: the dictionary has only
      [str] keys. *)
Definition in_dict (d : gmap string Z) (key : option string) : bool :=
    match key with
    | Some k => bool_decide (is_Some (d !! k))
    | None => false
    end.

Section filter_by_species.
Variable int : string -> option Z.
Variables Abricate098 Staramr Rgi : list (list string) -> result AmrParser.

Definition filter_by_species (self : t) (species : string)
    : result (list AmrResult) :=
    all_results ←
      IdentifyResults.get_results Abricate098 Staramr Rgi
        (results_filename self) (results_type self);
    species_to_genes ← SpeciesToGenes.populate int (database_filename self);
    let species_genes :=
      SpeciesToGenes.filter_by_species species_to_genes species
        (database_name self) in
    let species_genes_to_occurances :=
      genes_to_occurances (minimum_occurances self) species_genes in
    let filtered_results :=
      filter (fun r => in_dict species_genes_to_occurances (gene r)) all_results in
    Ok filtered_results.
End filter_by_species.
End FilterResults.

(** ** SummaryResult and Summary *)

Record SummaryResult : Type := {
  gene_name : option string;
  occurances : Z
}.

Module SummaryResult.
  (** [__str__]: ["\t".join([self.gene_name, str(self.occurances)])]. *)
Definition str (self : SummaryResult) : result string :=
    join TAB [gene_name self; Some (pretty (occurances self))].
End SummaryResult.

Module Summary.
  (** The dictionary [genename_to_summary], in insertion order; a key is a
      gene name or [None]. *)
Definition dict : Type := list (option string * SummaryResult).

  (** [d[key].occurances += 1] *)
Fixpoint increment (key : option string) (d : dict) : dict :=
    match d with
    | [] => []
    | (k, s) :: rest =>
        if decide (k = key)
        then (k, {| gene_name := gene_name s; occurances := (occurances s + 1)%Z |}) :: rest
        else (k, s) :: increment key rest
    end.

  (** One iteration of the loop of [aggregate_results]. *)
Definition aggregate_step (genename_to_summary : dict) (r : AmrResult) : dict :=
    if bool_decide (gene r ∈ genename_to_summary.*1) then
      increment (gene r) genename_to_summary
    else
      (genename_to_summary
         ++ [(gene r, {| gene_name := gene r; occurances := 1 |})])%list.

Definition aggregate_results (results : list AmrResult) : dict :=
    foldl aggregate_step [] results.
End Summary.

(** ** Scagaire *)

Module Scagaire.
Record t : Type := {
    input_file : list (list string);
    database_file : list (list string);
    database_name : string;
    minimum_occurances : Z;
    output_file : option string;
    results_type : option string;
    summary_file : option string;
    species : list string
  }.

  (** What [run] writes to: the files it appends to, by path, and the
      standard output. *)
Record world : Type := {
    files : gmap string string;
    stdout : string
  }.

  (** [open(path, "a+")]: a path that is [None] raises [TypeError]. *)
Definition open_append (path : option string) : result string :=
    match path with
    | Some p => Ok p
    | None => Raise TypeError
    end.

  (** [output_fh.write(text)] on a file opened for appending. *)
Definition write (path text : string) (w : world) : world :=
    {| files := <[path := default EmptyString (files w !! path) ++ text]> (files w);
       stdout := stdout w |}.

Definition print (text : string) (w : world) : world :=
    {| files := files w; stdout := stdout w ++ text ++ NL |}.

Definition separator : string := "=======================".

Definition output_summary (self : t) (results : list AmrResult)
      (species : string) (w : world) : result world :=
    output_gene_occurances ←
      mapM SummaryResult.str (Summary.aggregate_results results).*2;
    output_fh ← open_append (summary_file self);
    if bool_decide (0 < length results) then
      Ok (foldl (fun w r => write output_fh (species ++ TAB ++ r ++ NL) w)
                w output_gene_occurances)
    else
      Ok (write output_fh (species ++ TAB ++ "no_results" ++ TAB ++ "0" ++ NL) w).

  (** The header line [run] chooses for a list of results. *)
Definition header_line (results : list AmrResult) : string :=
    match results with
    | first :: _ => String.concat TAB (header first)
    | [] => "No results"
    end.

  (** The part of the loop body of [run] that follows the filtering: the
      summary, then the block of results. *)
Definition output_results (self : t) (spec : string)
      (results : list AmrResult) (w : world) : result world :=
    w ← output_summary self results spec w;
    lines ← mapM str results;
    let output_content := String.concat NL lines in
    let header := header_line results in
    match output_file self with
    | Some path =>
        let w :=
          if bool_decide (1 < length (species self))
          then write path ("Results for species:" ++ TAB ++ spec ++ NL
                             ++ separator ++ NL) w
          else w in
        let w := write path (header ++ NL) w in
        Ok (write path (output_content ++ NL) w)
    | None =>
        let w := print ("Results for species:" ++ TAB ++ spec ++ NL
                          ++ separator) w in
        let w := print header w in
        Ok (print output_content w)
    end.

Section run.
Variable int : string -> option Z.
Variables Abricate098 Staramr Rgi : list (list string) -> result AmrParser.

Definition filter_results (self : t) : FilterResults.t :=
    {| FilterResults.results_filename := input_file self;
       FilterResults.database_filename := database_file self;
       FilterResults.minimum_occurances := minimum_occurances self;
       FilterResults.database_name := database_name self;
       FilterResults.results_type := results_type self |}.

  (** [for spec in self.species]: an unknown species prints the error and
      returns from [run]. *)
Fixpoint run_loop (self : t) (sg : list SpeciesGenes) (specs : list string)
      (w : world) : result world :=
    match specs with
    | [] => Ok w
    | spec :: rest =>
        if bool_decide (spec ∉ SpeciesToGenes.all_species sg) then
          Ok (print "Error: Species not found in database so nothing to do" w)
        else
          results ←
            FilterResults.filter_by_species int Abricate098 Staramr Rgi
              (filter_results self) spec;
          w ← output_results self spec results w;
          run_loop self sg rest w
    end.

Definition run (self : t) (w : world) : result world :=
    sg ← SpeciesToGenes.populate int (database_file self);
    run_loop self sg (species self) w.
End run.
End Scagaire.

(** A reading of [int()] for plain decimal literals: an optional sign and
    at least one ASCII digit. It is used to run the model on concrete
    knowledge-base rows. *)
Fixpoint digits (s : string) (acc : Z) : option Z :=
  match s with
  | EmptyString => Some acc
  | String c rest =>
      let n := nat_of_ascii c in
      if bool_decide (48 <= n <= 57)
      then digits rest (acc * 10 + Z.of_nat (n - 48))%Z
      else None
  end.

Definition int_decimal (s : string) : option Z :=
  match s with
  | EmptyString => None
  | String "-"%char (String _ _ as rest) => Z.opp <$> digits rest 0
  | String "+"%char (String _ _ as rest) => digits rest 0
  | _ => digits s 0
  end.

(** ** Reference behaviour of the auto-detector *)

(** Whether the type hint names a dialect; [name] is the string
    [get_results] compares the hint with, if it has one for the dialect. *)
Definition hint_names (results_type name : option string) : bool :=
  match name with
  | Some n => bool_decide (results_type = Some n)
  | None => false
  end.

(** The records of the first candidate, in the order given, whose header
    validated or whose name the hint gives; no records if there is none. *)
Definition first_selected (results_type : option string)
    (candidates : list (AmrParser * bool * option string)) : list AmrResult :=
  match List.find (fun c => c.1.2 || hint_names results_type c.2) candidates with
  | Some c => results c.1.1
  | None => []
  end.

(** ** Reference behaviour of the filter *)

(** The knowledge base associates the key with the species and database
    through an entry whose count reaches the minimum. *)
Definition known_gene (kb : list SpeciesGenes) (species database_name : string)
    (minimum : Z) (key : option string) : Prop :=
  Exists (fun e => sg_species e = species /\ sg_database_name e = database_name /\
                   key = Some (sg_gene e) /\ (minimum <= sg_occurances e)%Z) kb.

#[global] Instance known_gene_dec kb species database_name minimum key :
  Decision (known_gene kb species database_name minimum key).
Proof. unfold known_gene. apply _. Defined.

(** The entries of the knowledge base for one species, gene and database,
    in file order. *)
Definition duplicates (kb : list SpeciesGenes) (species gene database_name : string)
  : list SpeciesGenes :=
  filter (fun e => sg_species e = species /\ sg_gene e = gene /\
                   sg_database_name e = database_name) kb.

(** ** Reference behaviour of the summary *)

(** The distinct keys of a list, each at the place of its first occurrence. *)
Fixpoint first_occurrences (keys : list (option string)) : list (option string) :=
  match keys with
  | [] => []
  | k :: rest => k :: filter (fun k' => k' <> k) (first_occurrences rest)
  end.

(** How many times a key occurs in a list. *)
Definition occurrences (k : option string) (keys : list (option string)) : Z :=
  Z.of_nat (length (filter (fun k' => k' = k) keys)).

(** The summary of a list of gene names: one entry per distinct name, in
    first-occurrence order, holding the number of its occurrences. *)
Definition summary_of (keys : list (option string)) : Summary.dict :=
  (fun k => (k, {| gene_name := k; occurances := occurrences k keys |}))
    <$> first_occurrences keys.

(** ** Dialects whose columns follow the printing order *)

(** The mapping of the dialect sends the columns of its expected header, in
    order, to the attributes its result class prints, in order; and a row as
    long as the header is not below the minimum column count. *)
Definition aligned (d : Dialect) : bool :=
  bool_decide (((list_to_map (d_mapping d) : gmap string string) !!.)
                 <$> d_default_header d = Some <$> str_fields (d_class d))
  && bool_decide (d_minimum_num_columns d <= length (d_default_header d)).


(** ** Sample inputs *)

Definition legacy_header : list string := d_default_header Abricate097_dialect.
Definition current_header : list string := d_default_header Abricate098_dialect.

Definition legacy_row (gene : string) : list string :=
  ["sample.fa"; "contig1"; "10"; "900"; gene; "1-891/891"; "==============="; "0/0";
   "100.00"; "99.89"; "ncbi"; "NG_000001.1"; "resistance protein"].

Definition current_row (gene : string) : list string :=
  ["sample.fa"; "contig1"; "10"; "900"; "+"; gene; "1-891/891"; "==============="; "0/0";
   "100.00"; "99.89"; "ncbi"; "NG_000001.1"; "resistance protein"; "TETRACYCLINE"].

(** A results file whose header stops after two columns. *)
Definition truncated_header_file : list (list string) :=
  [["#FILE"; "SEQUENCE"]].

(** A legacy results file with one extra trailing column. *)
Definition extra_column_file : list (list string) :=
  [(legacy_header ++ ["EXTRA"])%list].

Definition legacy_file : list (list string) :=
  [legacy_header; legacy_row "geneA"; legacy_row "geneB"; legacy_row "geneC"].

Definition current_file : list (list string) :=
  [current_header; current_row "geneA"].

(** A knowledge-base file: the header row, then the two entries
    (SpeciesX, geneA, 5, db1) and (SpeciesX, geneB, 1, db1). *)
Definition kb_header : list string :=
  ["species"; "gene"; "count"; "source"; "database"; "method"; "date"].

Definition kb_row (species gene count database_name : string) : list string :=
  [species; gene; count; "abricate"; database_name; "auto"; "20200101"].

Definition kb_file : list (list string) :=
  [kb_header; kb_row "SpeciesX" "geneA" "5" "db1"; kb_row "SpeciesX" "geneB" "1" "db1"].

(** The same knowledge base with a row of two fields in the middle. *)
Definition kb_file_short_row : list (list string) :=
  [kb_header; kb_row "SpeciesX" "geneA" "5" "db1"; ["SpeciesX"; "geneC"];
   kb_row "SpeciesX" "geneB" "1" "db1"].

(** A knowledge base with two entries for (SpeciesX, geneA, db1), of counts
    5 and then 1. *)
Definition kb_file_duplicates : list (list string) :=
  [kb_header; kb_row "SpeciesX" "geneA" "5" "db1"; kb_row "SpeciesX" "geneA" "1" "db1"].

Definition sample_filter (database : list (list string)) : FilterResults.t :=
  {| FilterResults.results_filename := legacy_file;
     FilterResults.database_filename := database;
     FilterResults.minimum_occurances := 3;
     FilterResults.database_name := "db1";
     FilterResults.results_type := None |}.

(** The value of a computation, if it did not raise. *)
Definition from_ok {A} (m : result A) : option A :=
  match m with
  | Ok a => Some a
  | Raise _ => None
  end.

(** A run on the sample results file for one species, with a threshold no
    entry of the sample knowledge base reaches. *)
Definition sample_run : Scagaire.t :=
  {| Scagaire.input_file := legacy_file;
     Scagaire.database_file := kb_file;
     Scagaire.database_name := "db1";
     Scagaire.minimum_occurances := 10;
     Scagaire.output_file := Some "filtered.tsv";
     Scagaire.results_type := None;
     Scagaire.summary_file := Some "summary.tsv";
     Scagaire.species := ["SpeciesX"] |}.

Definition empty_world : Scagaire.world :=
  {| Scagaire.files := ∅; Scagaire.stdout := EmptyString |}.

(** ** Further queries of SpeciesToGenes *)

Module SpeciesToGenes_queries.
Definition all_databases (species_to_genes : list SpeciesGenes) : list string :=
  SpeciesToGenes.sorted_set (sg_database_name <$> species_to_genes).

Definition all_genes (species_to_genes : list SpeciesGenes) : list string :=
  SpeciesToGenes.sorted_set (sg_gene <$> species_to_genes).

Definition num_of_all_species (species_to_genes : list SpeciesGenes) : nat :=
  length (SpeciesToGenes.all_species species_to_genes).

Definition num_of_all_databases (species_to_genes : list SpeciesGenes) : nat :=
  length (all_databases species_to_genes).

Definition num_of_all_genes (species_to_genes : list SpeciesGenes) : nat :=
  length (all_genes species_to_genes).

(** [sum([s.occurances for s in self.species_to_genes])]. *)
Definition sum_of_occurances (species_to_genes : list SpeciesGenes) : Z :=
  foldl (fun acc n => (acc + n)%Z) 0%Z (sg_occurances <$> species_to_genes).

Definition species_databases (species_to_genes : list SpeciesGenes)
    (query : string) : list string :=
  let specific_species := filter (fun s => sg_species s = query) species_to_genes in
  SpeciesToGenes.sorted_set (sg_database_name <$> specific_species).
End SpeciesToGenes_queries.

(** [SpeciesGenes.__str__]: every joined item is a string. *)
Definition SpeciesGenes_str (self : SpeciesGenes) : string :=
  String.concat TAB
    [sg_species self; sg_gene self; pretty (sg_occurances self);
     sg_database_name self].

(** [Abricate097.__str__]: the records, one per line. *)
Definition parser_str (self : AmrParser) : result string :=
  String.concat NL <$> mapM str (results self).

(** ** ScagaireCompare *)

Module ScagaireCompare.
Section compare.
Variable int : string -> option Z.

(** The line printed for an entry of the first species and the entries of
    the second species that bear its gene; [matching_species[0]] raises
    [IndexError] on an empty list. *)
Definition compare_line (s : SpeciesGenes) (matching_species : list SpeciesGenes)
  : result string :=
  first ← index matching_species 0;
  Ok (String.concat TAB
        [sg_gene s; sg_species s; pretty (sg_occurances s);
         sg_species first; pretty (sg_occurances first)]).

(** [compare]: the lines it prints, in order. *)
Definition compare (database : list (list string))
    (species1 species2 database_filter : string) : result (list string) :=
  sg ← SpeciesToGenes.populate int database;
  let species1_species_to_genes :=
    SpeciesToGenes.filter_by_species sg species1 database_filter in
  let species2_species_to_genes :=
    SpeciesToGenes.filter_by_species sg species2 database_filter in
  let species1_gene_names := sg_gene <$> species1_species_to_genes in
  let species2_gene_names := sg_gene <$> species2_species_to_genes in
  let filtered_species1_species_to_genes :=
    filter (fun s => sg_gene s ∈ species2_gene_names) species1_species_to_genes in
  let filtered_species2_species_to_genes :=
    filter (fun s => sg_gene s ∈ species1_gene_names) species2_species_to_genes in
  mapM (fun s =>
          compare_line s
            (filter (fun s2 => sg_gene s = sg_gene s2)
                    filtered_species2_species_to_genes))
       filtered_species1_species_to_genes.
End compare.
End ScagaireCompare.

(** ** ScagaireDownload.aggregate_amr_results and SpeciesDatabase *)

Module ScagaireDownload.
(** The dictionary [gene_to_freq], in insertion order. *)
Definition freq_dict : Type := list (option string * Z).

(** [gene_to_freq[key] += 1] *)
Fixpoint increment (key : option string) (d : freq_dict) : freq_dict :=
  match d with
  | [] => []
  | (k, n) :: rest =>
      if decide (k = key) then (k, (n + 1)%Z) :: rest
      else (k, n) :: increment key rest
  end.

(** The body of the inner loop of [aggregate_amr_results]. *)
Definition count_result (gene_to_freq : freq_dict) (amr_result : AmrResult)
  : freq_dict :=
  if bool_decide (gene amr_result ∈ gene_to_freq.*1) then
    increment (gene amr_result) gene_to_freq
  else
    (gene_to_freq ++ [(gene amr_result, 1%Z)])%list.

(** [files_to_amr_results] is the dictionary from file path to results, in
    insertion order; the loops run over its values. *)
Definition aggregate_amr_results
    (files_to_amr_results : list (string * list AmrResult)) : freq_dict :=
  foldl (fun gene_to_freq amr_results => foldl count_result gene_to_freq amr_results)
        [] files_to_amr_results.*2.
End ScagaireDownload.

Module SpeciesDatabase.
Record t : Type := {
  output_file : string;
  species : string;
  database : string;
  fixed_time : option string
}.

(** [str(g)] for a dictionary key that is a string or [None]. *)
Definition str_key (g : option string) : string :=
  match g with
  | Some s => s
  | None => "None"
  end.

(** The line written for one item of [gene_to_freq]; [today] is
    [datetime.today().strftime('%Y%m%d')]. *)
Definition gene_line (self : t) (today : string) (gene : option string) (freq : Z)
  : string :=
  let gene_results :=
    [species self; str_key gene; pretty freq;
     "abricate" ++ TAB ++ database self ++ TAB ++ "auto";
     match fixed_time self with
     | None => today
     | Some fixed => fixed
     end] in
  String.concat TAB gene_results ++ NL.

(** [output_genes_to_freq_file]: opening the file for appending creates it;
    then one line per item. *)
Definition output_genes_to_freq_file (self : t) (today : string)
    (gene_to_freq : ScagaireDownload.freq_dict) (w : Scagaire.world)
  : Scagaire.world :=
  foldl (fun w item => Scagaire.write (output_file self)
                         (gene_line self today item.1 item.2) w)
        (Scagaire.write (output_file self) EmptyString w)
        gene_to_freq.
End SpeciesDatabase.

(** ** Further sample inputs *)

(** The legacy header with its first two columns exchanged. *)
Definition swapped_header : list string :=
  ["SEQUENCE"; "#FILE"; "START"; "END"; "GENE"; "COVERAGE";
   "COVERAGE_MAP"; "GAPS"; "%COVERAGE"; "%IDENTITY"; "DATABASE";
   "ACCESSION"; "PRODUCT"].

(** A parser object with the constants of the legacy dialect and the given
    file header. *)
Definition legacy_parser (hdr : list string) : AmrParser :=
  {| minimum_num_columns := d_minimum_num_columns Abricate097_dialect;
     default_header := d_default_header Abricate097_dialect;
     parser_header := hdr;
     column_to_variable_mapping := list_to_map (d_mapping Abricate097_dialect);
     results := [] |}.

(** A legacy results file with a blank line and a truncated line among its
    rows. *)
Definition legacy_file_short_rows : list (list string) :=
  [legacy_header; legacy_row "geneA"; []; legacy_row "geneB";
   ["sample.fa"; "contig1"]; legacy_row "geneC"].

(** A legacy results file where a tool version added a trailing column. *)
Definition legacy_file_extra_column : list (list string) :=
  [(legacy_header ++ ["NOTES"])%list;
   (legacy_row "geneA" ++ ["checked"])%list;
   legacy_row "geneB"].

(** A file in none of the four formats. *)
Definition unknown_file : list (list string) :=
  [["sample"; "locus"; "score"]; ["sample.fa"; "geneA"; "0.9"]].

(** ** Reference behaviour of the knowledge-base load *)

(** The entry a data row stands for: species, gene and database are the
    fields at positions 0, 1 and 4, the count is the integer read from the
    field at position 2. There is none if one of the fields is missing or
    the count is not an integer. *)
Definition entry_of_row (int : string -> option Z) (row : list string)
  : option SpeciesGenes :=
  match row !! 0, row !! 1, row !! 2 ≫= int, row !! 4 with
  | Some species, Some gene, Some occurances, Some database_name =>
      Some {| sg_species := species; sg_gene := gene;
              sg_occurances := occurances; sg_database_name := database_name |}
  | _, _, _, _ => None
  end.

(** A knowledge-base file with a data row of four fields. *)
Definition kb_file_four_columns : list (list string) :=
  [kb_header; kb_row "SpeciesX" "geneA" "5" "db1"; ["SpeciesX"; "geneB"; "1"; "abricate"]].

(** A knowledge-base file with a count that is not an integer. *)
Definition kb_file_bad_count : list (list string) :=
  [kb_header; kb_row "SpeciesX" "geneA" "5" "db1"; kb_row "SpeciesX" "geneB" "many" "db1"].

(** The same filter with another minimum-occurrence threshold. *)
Definition with_minimum (self : FilterResults.t) (minimum : Z) : FilterResults.t :=
  {| FilterResults.results_filename := FilterResults.results_filename self;
     FilterResults.database_filename := FilterResults.database_filename self;
     FilterResults.minimum_occurances := minimum;
     FilterResults.database_name := FilterResults.database_name self;
     FilterResults.results_type := FilterResults.results_type self |}.

(** The frequency table of a list of gene names: one entry per distinct
    name, in first-occurrence order, holding the number of its occurrences. *)
Definition freq_of (keys : list (option string)) : ScagaireDownload.freq_dict :=
  (fun k => (k, occurrences k keys)) <$> first_occurrences keys.

(** A record that has only its gene attribute set. *)
Definition gene_record (g : string) : AmrResult :=
  setattr (new_result AbricateResult098 current_header) "gene" g.

(** ** Reference behaviour of a run on a species without retained records *)

(** What a run has written once it has processed a species for which no
    record is retained: the summary line of the species, then, in the
    output file or on the console, the heading of the species (in the file
    only when several species are processed), the line "No results" and an
    empty line. *)
Definition no_results_world (self : Scagaire.t) (spec sum_path : string)
    (w : Scagaire.world) : Scagaire.world :=
  let w1 :=
    Scagaire.write sum_path (spec ++ TAB ++ "no_results" ++ TAB ++ "0" ++ NL) w in
  let heading :=
    "Results for species:" ++ TAB ++ spec ++ NL ++ Scagaire.separator ++ NL in
  match Scagaire.output_file self with
  | Some path =>
      Scagaire.write path
        ((if bool_decide (1 < length (Scagaire.species self))
          then heading else EmptyString)
         ++ "No results" ++ NL ++ NL) w1
  | None =>
      {| Scagaire.files := Scagaire.files w1;
         Scagaire.stdout :=
           Scagaire.stdout w1 ++ heading ++ "No results" ++ NL ++ NL |}
  end.

(** The sample run without an output file: the results go to the console. *)
Definition sample_run_console : Scagaire.t :=
  {| Scagaire.input_file := legacy_file;
     Scagaire.database_file := kb_file;
     Scagaire.database_name := "db1";
     Scagaire.minimum_occurances := 10;
     Scagaire.output_file := None;
     Scagaire.results_type := None;
     Scagaire.summary_file := Some "summary.tsv";
     Scagaire.species := ["SpeciesX"] |}.

(** * Properties *)

(** ** Header validation *)

Section is_valid_facts.
Implicit Types (expected hdr : list string) (i : nat).

  (** Validation answers [True] exactly on the prefixes of the expected
      header (from position [i] on). *)
Lemma is_valid_from_true expected i hdr :
    is_valid_from expected i hdr = Ok true <-> hdr `prefix_of` drop i expected.
  Proof.
    revert i. induction hdr as [|h rest IH]; intros i; simpl.
    - split; [intros _; apply prefix_nil | done].
    - unfold index. destruct (expected !! i) as [d|] eqn:Hd; simpl.
      + rewrite (drop_S _ _ _ Hd).
        case_bool_decide as Hne.
        * split; [done | by intros Hp%prefix_cons_inv_1].
        * subst h. rewrite IH.
          split; [apply prefix_cons | apply prefix_cons_inv_2].
      + rewrite (drop_ge expected i) by by apply lookup_ge_None.
        split; [done | by intros Hp%prefix_nil_not].
  Qed.

  (** Validation raises exactly when the header runs past the end of the
      expected header without a mismatch before. *)
Lemma is_valid_from_raise expected i hdr e :
    is_valid_from expected i hdr = Raise e <->
    e = IndexError /\ exists extra, extra <> [] /\ hdr = (drop i expected ++ extra)%list.
  Proof.
    revert i. induction hdr as [|h rest IH]; intros i; simpl.
    - split; [done | intros [_ (extra & Hne & Heq)]].
      symmetry in Heq. apply app_eq_nil in Heq as [_ ->]. done.
    - unfold index. destruct (expected !! i) as [d|] eqn:Hd; simpl.
      + rewrite (drop_S _ _ _ Hd).
        case_bool_decide as Hne.
        * split; [done | intros [_ (extra & _ & Heq)]; simpl in Heq; by simplify_eq].
        * subst h. rewrite IH. split.
          -- intros [-> (extra & ? & ->)]. split; [done|]. by exists extra.
          -- intros [-> (extra & ? & Heq)]. simpl in Heq. simplify_eq.
             split; [done|]. by exists extra.
      + rewrite (drop_ge expected i) by by apply lookup_ge_None.
        split.
        * intros [= <-]. split; [done|]. by exists (h :: rest).
        * intros [-> _]. done.
  Qed.

  (** A header of the expected length that differs from the expected one is
      rejected, without an exception. *)
Lemma is_valid_from_same_length expected hdr :
    length hdr = length expected -> hdr <> expected ->
    is_valid_from expected 0 hdr = Ok false.
  Proof.
    intros Hlen Hne.
    destruct (is_valid_from expected 0 hdr) as [[|]|e] eqn:Hv; [| done |].
    - apply is_valid_from_true in Hv. rewrite drop_0 in Hv.
      destruct Hv as [k Hk]. subst expected.
      rewrite length_app in Hlen. destruct k; [| simpl in Hlen; lia].
      by rewrite app_nil_r in Hne.
    - apply is_valid_from_raise in Hv as [_ (extra & Hex & ->)].
      rewrite drop_0, length_app in Hlen.
      destruct extra; [done | simpl in Hlen; lia].
  Qed.
End is_valid_facts.

(** C2. Validation accepts a header that stops after the first two expected
    columns: the parser of the legacy dialect, built on a file whose header
    is [#FILE, SEQUENCE], reports the file valid although the header has 2
    columns and the expected header 13. *)
Theorem is_valid_accepts_truncated_header :
  exists p,
    Abricate097 truncated_header_file = Ok p /\
    parser_header p = ["#FILE"; "SEQUENCE"] /\
    length (default_header p) = 13 /\
    is_valid p = Ok true.
Proof.
  eexists. split; [vm_compute; reflexivity|].
  repeat split; vm_compute; reflexivity.
Qed.

(** C6. Validation of a header that extends the expected legacy header by
    one trailing column reads position 13 of the 13 expected columns and
    raises [IndexError]. *)
Theorem is_valid_raises_on_extra_column :
  (Abricate097 extra_column_file ≫= is_valid) = Raise IndexError.
Proof. vm_compute. reflexivity. Qed.

(** When every parser loads the file and every validation answers [False],
    and no hint is given, the auto-detector returns no records. *)
Lemma get_results_nothing_valid A98 S R input_file a a7 s r :
  A98 input_file = Ok a -> is_valid a = Ok false ->
  Abricate097 input_file = Ok a7 -> is_valid a7 = Ok false ->
  S input_file = Ok s -> is_valid s = Ok false ->
  R input_file = Ok r -> is_valid r = Ok false ->
  IdentifyResults.get_results A98 S R input_file None = Ok [].
Proof.
  intros Ha Hva Ha7 Hva7 Hs Hvs Hr Hvr. unfold IdentifyResults.get_results.
  rewrite Ha; simpl. rewrite Hva; simpl.
  rewrite Ha7; simpl. rewrite Hva7; simpl.
  rewrite Hs; simpl. rewrite Hvs; simpl.
  rewrite Hr; simpl. rewrite Hvr; simpl. reflexivity.
Qed.

(** C5. A file whose header is the legacy header followed by one more column
    matches none of the four expected headers; with no hint, the
    auto-detector raises [IndexError] on it. *)
Theorem get_results_raises_on_extra_column :
  Forall (fun d => hd [] extra_column_file <> d_default_header d)
    [Abricate098_dialect; Abricate097_dialect; Staramr_dialect; Rgi_dialect] /\
  IdentifyResults.get_results Abricate098 Staramr Rgi extra_column_file None
    = Raise IndexError.
Proof.
  split; [| vm_compute; reflexivity].
  repeat constructor; vm_compute; discriminate.
Qed.

(** C4 (as amended). When the four parsers load the file and validate
    without an exception, the auto-detector returns the records of the first
    of AbricateCurrent, AbricateLegacy, StarAmr, Rgi whose header validated
    or that the hint names, where the hint "abricate" names AbricateLegacy,
    "staramr" StarAmr and "rgi" Rgi, and no hint names AbricateCurrent; it
    returns no records if there is none. *)
Theorem get_results_first_selected A98 S R input_file results_type
    a va a7 va7 s vs r vr :
  A98 input_file = Ok a -> is_valid a = Ok va ->
  Abricate097 input_file = Ok a7 -> is_valid a7 = Ok va7 ->
  S input_file = Ok s -> is_valid s = Ok vs ->
  R input_file = Ok r -> is_valid r = Ok vr ->
  IdentifyResults.get_results A98 S R input_file results_type =
  Ok (first_selected results_type
        [(a, va, None); (a7, va7, Some "abricate");
         (s, vs, Some "staramr"); (r, vr, Some "rgi")]).
Proof.
  intros Ha Hva Ha7 Hva7 Hs Hvs Hr Hvr.
  unfold IdentifyResults.get_results, first_selected.
  rewrite Ha; simpl. rewrite Hva; simpl.
  destruct va; simpl; [reflexivity|].
  rewrite Ha7; simpl. rewrite Hva7; simpl.
  destruct (va7 || _); simpl; [reflexivity|].
  rewrite Hs; simpl. rewrite Hvs; simpl.
  destruct (vs || _); simpl; [reflexivity|].
  rewrite Hr; simpl. rewrite Hvr; simpl.
  destruct (vr || _); reflexivity.
Qed.

Lemma get_results_first_selected_witness :
  exists a a7 s r,
    Abricate098 legacy_file = Ok a /\ Abricate097 legacy_file = Ok a7 /\
    Staramr legacy_file = Ok s /\ Rgi legacy_file = Ok r /\
    IdentifyResults.get_results Abricate098 Staramr Rgi legacy_file (Some "rgi") =
    Ok (first_selected (Some "rgi")
          [(a, false, None); (a7, true, Some "abricate");
           (s, false, Some "staramr"); (r, false, Some "rgi")]).
Proof.
  do 4 eexists.
  split; [vm_compute; reflexivity|].
  split; [vm_compute; reflexivity|].
  split; [vm_compute; reflexivity|].
  split; [vm_compute; reflexivity|].
  apply (get_results_first_selected Abricate098 Staramr Rgi legacy_file (Some "rgi"));
    vm_compute; reflexivity.
Defined.

(** C4, counterexample. On a file in the current Abricate format, the hint
    "abricate", which names the legacy dialect, does not win: the records
    returned are those of the current-dialect parser, not those of the
    legacy parser. *)
Lemma get_results_hint_does_not_win :
  IdentifyResults.get_results Abricate098 Staramr Rgi current_file (Some "abricate")
    = results <$> Abricate098 current_file /\
  results <$> Abricate098 current_file <> results <$> Abricate097 current_file.
Proof.
  split; [vm_compute; reflexivity|].
  vm_compute. discriminate.
Qed.

(** ** Loading the knowledge base *)

Section populate_facts.
Variable int : string -> option Z.

Lemma populate_rows_short_row pre row post :
    length row < SpeciesToGenes.minimum_num_columns ->
    SpeciesToGenes.populate_rows int (pre ++ row :: post) =
    SpeciesToGenes.populate_rows int (pre ++ post).
  Proof.
    intros Hshort. induction pre as [|r pre IH]; simpl.
    - by rewrite bool_decide_eq_true_2.
    - by rewrite IH.
  Qed.
End populate_facts.

(** C3. A data row with fewer than three fields is skipped by the load: the
    knowledge base loaded from a file with such a row anywhere among its data
    rows is the one loaded from the file without it, whatever the row holds
    and however few fields it has. *)
Theorem populate_skips_short_row int hdr pre row post :
  length row < SpeciesToGenes.minimum_num_columns ->
  SpeciesToGenes.minimum_num_columns = 3 /\
  SpeciesToGenes.populate int (hdr :: pre ++ row :: post) =
  SpeciesToGenes.populate int (hdr :: pre ++ post).
Proof.
  intros Hshort. split; [reflexivity|].
  unfold SpeciesToGenes.populate; simpl.
  by apply populate_rows_short_row.
Qed.

Lemma populate_skips_short_row_witness :
  SpeciesToGenes.populate int_decimal kb_file_short_row =
  SpeciesToGenes.populate int_decimal kb_file.
Proof.
  apply (populate_skips_short_row int_decimal kb_header
           [kb_row "SpeciesX" "geneA" "5" "db1"] ["SpeciesX"; "geneC"]
           [kb_row "SpeciesX" "geneB" "1" "db1"]).
  vm_compute. lia.
Defined.

(** The sample knowledge base loads, the short row leaving no entry. *)
Example populate_short_row_example :
  SpeciesToGenes.populate int_decimal kb_file_short_row =
  Ok [ {| sg_species := "SpeciesX"; sg_gene := "geneA"; sg_occurances := 5;
          sg_database_name := "db1" |};
       {| sg_species := "SpeciesX"; sg_gene := "geneB"; sg_occurances := 1;
          sg_database_name := "db1" |} ].
Proof. vm_compute. reflexivity. Qed.

(** ** Filtering by species *)

Section filter_facts.
Implicit Types (d : gmap string Z) (l : list SpeciesGenes).

Lemma genes_to_occurances_foldl minimum l d k :
    is_Some (foldl (fun d g =>
                      if bool_decide (sg_occurances g >= minimum)%Z
                      then <[sg_gene g := sg_occurances g]> d else d) d l !! k) <->
    is_Some (d !! k) \/
    Exists (fun e => sg_gene e = k /\ (minimum <= sg_occurances e)%Z) l.
  Proof.
    revert d. induction l as [|g l IH]; intros d; simpl.
    - rewrite Exists_nil. tauto.
    - rewrite IH, Exists_cons. case_bool_decide as Hge.
      + rewrite lookup_insert_is_Some. 
        destruct (decide (sg_gene g = k)) as [Heq|Hne].
        * split; [intros _; right; left; split; [done | lia] | intros _; left; by left].
        * split.
          -- intros [[?|[_ ?]]|?]; [done | by left | by right; right].
          -- intros [?|[[? _]|?]]; [left; right; done | done | by right].
      + split.
        * intros [?|?]; [by left | by right; right].
        * intros [?|[[_ ?]|?]]; [by left | lia | by right].
  Qed.

  (** Membership in the dictionary built by the filter. *)
Lemma in_dict_genes_to_occurances minimum l key :
    FilterResults.in_dict (FilterResults.genes_to_occurances minimum l) key <->
    Exists (fun e => key = Some (sg_gene e) /\ (minimum <= sg_occurances e)%Z) l.
  Proof.
    destruct key as [k|]; simpl.
    - rewrite bool_decide_spec. unfold FilterResults.genes_to_occurances.
      rewrite genes_to_occurances_foldl, lookup_empty, !Exists_exists.
      split.
      + intros [[? ?]|(e & ? & <- & ?)]; [done|]. by exists e.
      + intros (e & ? & [= ->] & ?). right. by exists e.
    - rewrite Exists_exists. split; [done | by intros (e & _ & ? & _)].
  Qed.

Lemma in_dict_known kb species database_name minimum key :
    FilterResults.in_dict
      (FilterResults.genes_to_occurances minimum
         (SpeciesToGenes.filter_by_species kb species database_name)) key <->
    known_gene kb species database_name minimum key.
  Proof.
    rewrite in_dict_genes_to_occurances. unfold known_gene.
    rewrite !Exists_exists. unfold SpeciesToGenes.filter_by_species.
    split.
    - intros (e & [[? ?] ?]%list_elem_of_filter & ? & ?). by exists e.
    - intros (e & ? & ? & ? & ? & ?). exists e.
      rewrite list_elem_of_filter. done.
  Qed.
End filter_facts.

(** C1. Given the parsed record list and the loaded knowledge base, the
    filter returns exactly the records whose gene the knowledge base
    associates with the species and database with a count at or above the
    threshold; the result is the input list with the other records left out,
    so order and multiplicity are those of the input. *)
Theorem filter_by_species_known_genes int A98 S R self species all_results kb :
  IdentifyResults.get_results A98 S R
    (FilterResults.results_filename self) (FilterResults.results_type self)
    = Ok all_results ->
  SpeciesToGenes.populate int (FilterResults.database_filename self) = Ok kb ->
  FilterResults.filter_by_species int A98 S R self species =
  Ok (filter (fun r => known_gene kb species (FilterResults.database_name self)
                         (FilterResults.minimum_occurances self) (gene r))
             all_results).
Proof.
  intros Hres Hkb. unfold FilterResults.filter_by_species.
  rewrite Hres; simpl. rewrite Hkb; simpl. f_equal.
  apply list_filter_iff. intros r. apply in_dict_known.
Qed.

Lemma filter_by_species_known_genes_witness :
  exists all_results kb,
    IdentifyResults.get_results Abricate098 Staramr Rgi legacy_file None = Ok all_results /\
    SpeciesToGenes.populate int_decimal kb_file = Ok kb /\
    FilterResults.filter_by_species int_decimal Abricate098 Staramr Rgi
      (sample_filter kb_file) "SpeciesX" =
    Ok (filter (fun r => known_gene kb "SpeciesX" "db1" 3 (gene r)) all_results).
Proof.
  do 2 eexists.
  split; [vm_compute; reflexivity|].
  split; [vm_compute; reflexivity|].
  apply (filter_by_species_known_genes int_decimal Abricate098 Staramr Rgi
           (sample_filter kb_file) "SpeciesX"); vm_compute; reflexivity.
Defined.

(** Threshold filtering on the sample inputs: with the entries
    (SpeciesX, geneA, 5, db1) and (SpeciesX, geneB, 1, db1) and threshold 3,
    the records for geneA, geneB, geneC are filtered down to geneA. *)
Example filter_by_species_threshold_example :
  (fmap (M:=list) gene <$> IdentifyResults.get_results Abricate098 Staramr Rgi legacy_file None)
    = Ok [Some "geneA"; Some "geneB"; Some "geneC"] /\
  (fmap (M:=list) gene <$> FilterResults.filter_by_species int_decimal Abricate098 Staramr Rgi
                   (sample_filter kb_file) "SpeciesX")
    = Ok [Some "geneA"].
Proof. split; vm_compute; reflexivity. Qed.

(** C10 (as amended). With several entries for the same species, gene and
    database, the threshold is applied to each entry on its own: a record
    bearing the gene is retained if and only if at least one of these
    entries has a count at or above the threshold. Counts of different
    entries are never added: if every entry is below the threshold, the
    record is dropped. *)
Theorem filter_by_species_duplicates int A98 S R self species all_results kb :
  IdentifyResults.get_results A98 S R
    (FilterResults.results_filename self) (FilterResults.results_type self)
    = Ok all_results ->
  SpeciesToGenes.populate int (FilterResults.database_filename self) = Ok kb ->
  exists out,
    FilterResults.filter_by_species int A98 S R self species = Ok out /\
    forall r g, gene r = Some g ->
      let entries := duplicates kb species g (FilterResults.database_name self) in
      (r ∈ out <->
         r ∈ all_results /\
         Exists (fun e => (FilterResults.minimum_occurances self <= sg_occurances e)%Z)
                entries) /\
      (Forall (fun e => (sg_occurances e < FilterResults.minimum_occurances self)%Z)
              entries -> r ∉ out).
Proof.
  intros Hres Hkb. eexists. split.
  { unfold FilterResults.filter_by_species.
    rewrite Hres; simpl. rewrite Hkb; simpl. reflexivity. }
  intros r g Hg entries.
  assert (Hiff : FilterResults.in_dict
                   (FilterResults.genes_to_occurances (FilterResults.minimum_occurances self)
                      (SpeciesToGenes.filter_by_species kb species
                         (FilterResults.database_name self))) (gene r) <->
                 Exists (fun e => (FilterResults.minimum_occurances self <= sg_occurances e)%Z)
                        entries).
  { rewrite in_dict_known. unfold known_gene, entries, duplicates.
    rewrite !Exists_exists. rewrite Hg. split.
    - intros (e & ? & ? & ? & [= ->] & ?). exists e.
      rewrite list_elem_of_filter. done.
    - intros (e & [(? & <- & ?) ?]%list_elem_of_filter & ?).
      exists e. naive_solver. }
  rewrite list_elem_of_filter, Hiff. split; [tauto|].
  intros Hall [Hex _]. apply Exists_exists in Hex as (e & He & Hle).
  rewrite Forall_forall in Hall. specialize (Hall e He). simpl in Hall. lia.
Qed.

Lemma filter_by_species_duplicates_witness :
  exists out,
    FilterResults.filter_by_species int_decimal Abricate098 Staramr Rgi
      (sample_filter kb_file_duplicates) "SpeciesX" = Ok out /\
    gene <$> out = [Some "geneA"].
Proof.
  destruct (filter_by_species_duplicates int_decimal Abricate098 Staramr Rgi
              (sample_filter kb_file_duplicates) "SpeciesX"
              (default [] (from_ok (IdentifyResults.get_results Abricate098 Staramr Rgi
                                      legacy_file None)))
              (default [] (from_ok (SpeciesToGenes.populate int_decimal kb_file_duplicates))))
    as (out & Hout & _).
  - vm_compute. reflexivity.
  - vm_compute. reflexivity.
  - exists out. split; [exact Hout|].
    revert Hout. vm_compute. intros [= <-]. reflexivity.
Defined.

(** C10, counterexample. The knowledge base holds (SpeciesX, geneA, db1)
    twice, with count 5 and then count 1, and the threshold is 3. The count
    of the last entry is below the threshold, and the record bearing geneA
    is retained all the same. *)
Lemma filter_by_species_last_entry_counterexample :
  exists kb out,
    SpeciesToGenes.populate int_decimal kb_file_duplicates = Ok kb /\
    FilterResults.filter_by_species int_decimal Abricate098 Staramr Rgi
      (sample_filter kb_file_duplicates) "SpeciesX" = Ok out /\
    gene <$> out = [Some "geneA"] /\
    sg_occurances <$> last (duplicates kb "SpeciesX" "geneA" "db1") = Some 1%Z /\
    ~ (FilterResults.minimum_occurances (sample_filter kb_file_duplicates) <= 1)%Z.
Proof.
  do 2 eexists.
  split; [vm_compute; reflexivity|].
  split; [vm_compute; reflexivity|].
  split; [vm_compute; reflexivity|].
  split; [vm_compute; reflexivity|].
  vm_compute. intros H. apply H. reflexivity.
Qed.

(** ** The summary *)

Section summary_facts.
Implicit Types (keys ks : list (option string)) (k x : option string).

Lemma elem_of_first_occurrences keys x :
    x ∈ first_occurrences keys <-> x ∈ keys.
  Proof.
    induction keys as [|k rest IH]; simpl; [done|].
    rewrite !elem_of_cons, list_elem_of_filter, IH.
    destruct (decide (x = k)); intuition congruence.
  Qed.

Lemma NoDup_first_occurrences keys : NoDup (first_occurrences keys).
  Proof.
    induction keys as [|k rest IH]; simpl; [constructor|].
    constructor; [| by apply NoDup_filter].
    rewrite list_elem_of_filter. intros [Hne _]. by apply Hne.
  Qed.

Lemma first_occurrences_snoc keys x :
    first_occurrences (keys ++ [x]) =
    if decide (x ∈ keys) then first_occurrences keys
    else (first_occurrences keys ++ [x])%list.
  Proof.
    induction keys as [|k rest IH]; simpl.
    - reflexivity.
    - rewrite IH. destruct (decide (x ∈ rest)) as [Hin|Hnin].
      + rewrite decide_True by (by right). reflexivity.
      + rewrite filter_app. destruct (decide (x = k)) as [->|Hne].
        * rewrite decide_True by (by left). simpl.
          rewrite filter_cons_False, filter_nil, app_nil_r by (intros H; by apply H).
          reflexivity.
        * rewrite decide_False by (rewrite elem_of_cons; intuition congruence). simpl.
          rewrite filter_cons_True by done. reflexivity.
  Qed.

Lemma occurrences_snoc k keys x :
    occurrences k (keys ++ [x]) =
    (occurrences k keys + if decide (x = k) then 1 else 0)%Z.
  Proof.
    unfold occurrences. rewrite filter_app, length_app.
    destruct (decide (x = k)) as [->|Hne].
    - rewrite filter_cons_True by done. simpl. lia.
    - rewrite filter_cons_False by done. simpl. lia.
  Qed.

Lemma occurrences_not_elem_of k keys : k ∉ keys -> occurrences k keys = 0%Z.
  Proof.
    intros Hnin. unfold occurrences.
    induction keys as [|k' rest IH]; simpl; [done|].
    apply not_elem_of_cons in Hnin as [Hne Hnin].
    rewrite filter_cons_False by done. by apply IH.
  Qed.

  (** On a dictionary with distinct keys, incrementing the entry of [x]
      adds one to the count stored under [x] and nothing to the others. *)
Lemma increment_fmap (count : option string -> Z) ks x :
    NoDup ks ->
    Summary.increment x
      ((fun k => (k, {| gene_name := k; occurances := count k |})) <$> ks) =
    (fun k => (k, {| gene_name := k;
                     occurances := (count k + if decide (x = k) then 1 else 0)%Z |}))
      <$> ks.
  Proof.
    induction 1 as [|k ks Hnin Hnd IH]; simpl; [done|].
    destruct (decide (k = x)) as [->|Hne].
    - rewrite decide_True by done. simpl. f_equal.
      apply list_fmap_ext. intros i k Hk.
      rewrite decide_False; [by rewrite Z.add_0_r|].
      intros ->. apply Hnin. eapply list_elem_of_lookup_2. exact Hk.
    - rewrite decide_False by done. rewrite Z.add_0_r. f_equal. apply IH.
  Qed.

Lemma summary_of_keys keys : (summary_of keys).*1 = first_occurrences keys.
  Proof.
    unfold summary_of. rewrite <- list_fmap_compose.
    rewrite <- (list_fmap_id (first_occurrences keys)) at 2.
    apply list_fmap_ext. done.
  Qed.

Lemma aggregate_step_summary_of keys r :
    Summary.aggregate_step (summary_of keys) r = summary_of (keys ++ [gene r]).
  Proof.
    unfold Summary.aggregate_step. rewrite summary_of_keys.
    case_bool_decide as Hin; rewrite elem_of_first_occurrences in Hin;
      unfold summary_of; rewrite first_occurrences_snoc.
    - rewrite decide_True by done.
      rewrite increment_fmap by apply NoDup_first_occurrences.
      apply list_fmap_ext. intros i k _. by rewrite occurrences_snoc.
    - rewrite decide_False by done. rewrite fmap_app. simpl.
      rewrite occurrences_snoc, decide_True, occurrences_not_elem_of by done.
      f_equal. apply list_fmap_ext. intros i k Hk.
      rewrite occurrences_snoc, decide_False; [by rewrite Z.add_0_r|].
      intros <-. apply Hin. apply elem_of_first_occurrences.
      eapply list_elem_of_lookup_2. exact Hk.
  Qed.

Lemma foldl_aggregate_step keys results :
    foldl Summary.aggregate_step (summary_of keys) results =
    summary_of (keys ++ (gene <$> results)).
  Proof.
    revert keys. induction results as [|r rest IH]; intros keys; simpl.
    - by rewrite app_nil_r.
    - rewrite aggregate_step_summary_of, IH, <- app_assoc. reflexivity.
  Qed.
End summary_facts.

(** C7. The aggregator maps every gene name borne by a record of the list to
    the number of records bearing it; the entries stand in the order in which
    the gene names first occur in the list, each gene name has one entry,
    and the result is determined by the list of gene names alone. *)
Theorem aggregate_results_counts results :
  Summary.aggregate_results results = summary_of (gene <$> results) /\
  NoDup (Summary.aggregate_results results).*1 /\
  (Summary.aggregate_results results).*1 = first_occurrences (gene <$> results) /\
  forall k s, (k, s) ∈ Summary.aggregate_results results ->
    k ∈ (gene <$> results) /\ gene_name s = k /\
    occurances s = Z.of_nat (length (filter (fun r => gene r = k) results)).
Proof.
  assert (Heq : Summary.aggregate_results results = summary_of (gene <$> results)).
  { unfold Summary.aggregate_results.
    change (@nil (option string * SummaryResult)) with (summary_of []).
    by rewrite foldl_aggregate_step. }
  rewrite Heq, summary_of_keys. split; [done|].
  split; [apply NoDup_first_occurrences|]. split; [done|].
  intros k s Hks. unfold summary_of in Hks.
  apply list_elem_of_fmap in Hks as (k' & [= <- ->] & Hk).
  rewrite elem_of_first_occurrences in Hk. split; [done|]. split; [done|].
  simpl. unfold occurrences. f_equal.
  clear. induction results as [|r rest IH]; simpl; [done|].
  destruct (decide (gene r = k)) as [Heq|Hne].
  - rewrite !filter_cons_True by done. simpl. f_equal. exact IH.
  - rewrite !filter_cons_False by done. exact IH.
Qed.

(** Aggregating the records for geneA, geneA, geneB gives geneA with count 2
    and then geneB with count 1. *)
Example aggregate_results_example :
  Summary.aggregate_results
    [setattr (new_result AbricateResult097 legacy_header) "gene" "geneA";
     setattr (new_result AbricateResult097 legacy_header) "gene" "geneA";
     setattr (new_result AbricateResult097 legacy_header) "gene" "geneB"]
  = [(Some "geneA", {| gene_name := Some "geneA"; occurances := 2 |});
     (Some "geneB", {| gene_name := Some "geneB"; occurances := 1 |})].
Proof. vm_compute. reflexivity. Qed.

(** ** Parsing a row and printing the record *)

Section roundtrip_facts.
Implicit Types (fs hs row : list string) (r : AmrResult).

Lemma str_fields_NoDup c : NoDup (str_fields c).
  Proof.
    destruct c; apply (bool_decide_unpack _); vm_compute; exact I.
  Qed.

Lemma all_str_Some row : all_str (Some <$> row) = Some row.
  Proof.
    induction row as [|v row IH]; [done|].
    rewrite fmap_cons. cbn [all_str]. by rewrite IH.
  Qed.

  (** The dictionary made of distinct keys and a row of values holds, under
      each key, the value at the key's position. *)
Lemma lookup_zipped fs row :
    NoDup fs -> length row = length fs ->
    ((list_to_map (zip fs row) : gmap string string) !!.) <$> fs = Some <$> row.
  Proof.
    intros Hnd Hlen. apply list_eq. intros i.
    rewrite !list_lookup_fmap.
    destruct (fs !! i) as [f|] eqn:Hf; simpl.
    - destruct (lookup_lt_is_Some_2 row i) as [v Hv].
      { rewrite Hlen. by eapply lookup_lt_Some. }
      rewrite Hv. simpl. f_equal.
      apply elem_of_list_to_map.
      + rewrite fst_zip by lia. exact Hnd.
      + apply list_elem_of_lookup. exists i.
        rewrite lookup_zip_with, Hf, Hv. reflexivity.
    - apply lookup_ge_None in Hf.
      rewrite (lookup_ge_None_2 row i) by lia. reflexivity.
  Qed.

  (** Walking a row whose columns, from position [i] on, are mapped to the
      distinct attributes [fs], sets each of them to the field at its
      position and touches nothing else. *)
Lemma map_columns_zipped self row : forall i hs fs r,
    drop i (parser_header self) = hs ->
    (column_to_variable_mapping self !!.) <$> hs = Some <$> fs ->
    NoDup fs -> length row = length fs ->
    exists r',
      map_columns self i row r = Ok r' /\
      attrs r' = list_to_map (zip fs row) ∪ attrs r /\
      result_class r' = result_class r /\
      delimiter r' = delimiter r /\
      header r' = header r.
  Proof.
    induction row as [|v row IH]; intros i hs fs r Hdrop Hmap Hnd Hlen.
    - destruct fs; [|done]. exists r. simpl.
      rewrite (left_id_L ∅ (∪)). done.
    - destruct fs as [|f fs]; [done|].
      destruct hs as [|h hs]; [done|].
      simpl in Hmap. injection Hmap as Hh Hmap.
      apply NoDup_cons in Hnd as [Hf Hnd].
      assert (Hi : parser_header self !! i = Some h).
      { rewrite <- (Nat.add_0_r i), <- lookup_drop, Hdrop. reflexivity. }
      assert (Hdrop' : drop (S i) (parser_header self) = hs).
      { rewrite (drop_S _ _ _ Hi) in Hdrop. by injection Hdrop. }
      destruct (IH (S i) hs fs (setattr r f v) Hdrop' Hmap Hnd ltac:(by injection Hlen))
        as (r' & Hrun & Hattrs & Hcls & Hdel & Hhdr).
      exists r'. simpl. unfold index. rewrite Hi. simpl. rewrite Hh.
      split; [exact Hrun|]. split; [|done].
      rewrite Hattrs. simpl.
      rewrite <- insert_union_l. symmetry. apply insert_union_r.
      apply not_elem_of_list_to_map_1.
      rewrite fst_zip; [done|]. injection Hlen. lia.
  Qed.

Variable d : Dialect.
Hypothesis Haligned : aligned d = true.

Let self : AmrParser :=
    {| minimum_num_columns := d_minimum_num_columns d;
       default_header := d_default_header d;
       parser_header := d_default_header d;
       column_to_variable_mapping := list_to_map (d_mapping d);
       results := [] |}.

Lemma aligned_mapping :
    ((list_to_map (d_mapping d) : gmap string string) !!.) <$> d_default_header d
    = Some <$> str_fields (d_class d).
  Proof.
    unfold aligned in Haligned. apply andb_prop in Haligned as [H _].
    by apply bool_decide_eq_true in H.
  Qed.

Lemma aligned_length :
    length (d_default_header d) = length (str_fields (d_class d)).
  Proof.
    pose proof aligned_mapping as H. apply (f_equal length) in H.
    by rewrite !length_fmap in H.
  Qed.

Lemma aligned_minimum :
    d_minimum_num_columns d <= length (d_default_header d).
  Proof.
    unfold aligned in Haligned. apply andb_prop in Haligned as [_ H].
    by apply bool_decide_eq_true in H.
  Qed.

  (** One well-formed row becomes a record that prints as the row. *)
Lemma map_columns_str row :
    length row = length (d_default_header d) ->
    exists r,
      map_columns self 0 row (new_result (d_class d) (d_default_header d)) = Ok r /\
      getattr r <$> str_fields (d_class d) = Some <$> row /\
      str r = Ok (String.concat TAB row).
  Proof.
    intros Hlen.
    destruct (map_columns_zipped self row 0 (d_default_header d)
                (str_fields (d_class d))
                (new_result (d_class d) (d_default_header d)))
      as (r & Hrun & Hattrs & Hcls & Hdel & _).
    { reflexivity. }
    { exact aligned_mapping. }
    { apply str_fields_NoDup. }
    { by rewrite <- aligned_length. }
    exists r. split; [exact Hrun|].
    assert (Hget : getattr r <$> str_fields (d_class d) = Some <$> row).
    { unfold getattr. rewrite Hattrs. simpl.
      rewrite (right_id_L ∅ (∪)). apply lookup_zipped.
      - apply str_fields_NoDup.
      - by rewrite <- aligned_length. }
    split; [exact Hget|].
    unfold str. rewrite Hcls, Hdel. simpl. rewrite Hget.
    unfold join. by rewrite all_str_Some.
  Qed.


End roundtrip_facts.



(** ** Writing the results *)

Lemma append_assoc (a b c : string) : (a ++ b) ++ c = a ++ (b ++ c).
Proof.
  induction a as [|ch a IH]; [done|].
  change (String ch ((a ++ b) ++ c) = String ch (a ++ (b ++ c))).
  by rewrite IH.
Qed.

(** When the list of results is empty, the block appended to the output
    file is the species separator (only when several species are
    processed), then the line "No results" in place of a header line, then
    an empty line for the empty body. *)
Theorem output_results_no_results self spec w out_path sum_path :
  Scagaire.output_file self = Some out_path ->
  Scagaire.summary_file self = Some sum_path ->
  out_path <> sum_path ->
  exists w',
    Scagaire.output_results self spec [] w = Ok w' /\
    Scagaire.files w' !! out_path =
    Some (default EmptyString (Scagaire.files w !! out_path)
          ++ (if bool_decide (1 < length (Scagaire.species self))
              then "Results for species:" ++ TAB ++ spec ++ NL
                     ++ Scagaire.separator ++ NL
              else EmptyString)
          ++ "No results" ++ NL
          ++ NL).
Proof.
  intros Hout Hsum Hne.
  unfold Scagaire.output_results, Scagaire.output_summary. simpl.
  rewrite Hsum, Hout. simpl.
  eexists. split; [reflexivity|].
  case_bool_decide; unfold Scagaire.write; simpl;
    rewrite !lookup_insert_eq; simpl;
    rewrite ?lookup_insert_eq; simpl;
    rewrite lookup_insert_ne by done; simpl;
    rewrite !append_assoc; reflexivity.
Qed.

Lemma output_results_no_results_witness :
  exists w',
    Scagaire.output_results sample_run "SpeciesX" [] empty_world = Ok w' /\
    Scagaire.files w' !! "filtered.tsv" = Some ("No results" ++ NL ++ NL).
Proof.
  destruct (output_results_no_results sample_run "SpeciesX" empty_world
              "filtered.tsv" "summary.tsv") as (w' & Hrun & Hfile).
  - reflexivity.
  - reflexivity.
  - discriminate.
  - exists w'. split; [exact Hrun | exact Hfile].
Defined.

Section run_facts.
Variable int : string -> option Z.
Variables A98 S R : list (list string) -> result AmrParser.
Implicit Types (self : Scagaire.t) (w : Scagaire.world).

(** Two writes to the same file, one after the other, append the two texts. *)
Lemma write_write path a b w :
  Scagaire.write path b (Scagaire.write path a w) = Scagaire.write path (a ++ b) w.
Proof.
  unfold Scagaire.write. simpl. f_equal.
  rewrite lookup_insert_eq, insert_insert_eq. simpl.
  by rewrite append_assoc.
Qed.

(** On an empty list of results, the loop body writes the summary line and
    the "No results" block. *)
Lemma output_results_nil self spec sum_path w :
  Scagaire.summary_file self = Some sum_path ->
  Scagaire.output_results self spec [] w = Ok (no_results_world self spec sum_path w).
Proof.
  intros Hsum.
  unfold Scagaire.output_results, Scagaire.output_summary, no_results_world.
  simpl. rewrite Hsum. simpl.
  destruct (Scagaire.output_file self) as [path|]; simpl.
  - f_equal. case_bool_decide; rewrite !write_write.
    + f_equal; by rewrite ?append_assoc.
    + reflexivity.
  - f_equal. unfold Scagaire.print. simpl. f_equal; by rewrite ?append_assoc.
Qed.

(** The species that are in the knowledge base are processed one after the
    other. *)
Lemma run_loop_app self sg pre post w :
  Forall (fun s => s ∈ SpeciesToGenes.all_species sg) pre ->
  Scagaire.run_loop int A98 S R self sg (pre ++ post) w =
  Scagaire.run_loop int A98 S R self sg pre w
    ≫= Scagaire.run_loop int A98 S R self sg post.
Proof.
  intros Hknown. revert w.
  induction Hknown as [|spec pre Hspec _ IH]; intros w; [done|].
  cbn [app Scagaire.run_loop].
  rewrite bool_decide_eq_false_2 by (intros Hnot; by apply Hnot).
  destruct (FilterResults.filter_by_species int A98 S R
              (Scagaire.filter_results self) spec) as [results|]; [|done].
  simpl. destruct (Scagaire.output_results self spec results w) as [w'|]; [|done].
  simpl. apply IH.
Qed.
End run_facts.

(** C9 (as amended). In a run whose knowledge base loads and whose summary
    file is given, take a species that is in the knowledge base, that is
    reached (the species before it in the list are in the knowledge base and
    were processed without error) and for which no record is retained. Once
    it is processed, the run has written its summary line, then its heading
    (on the console, and in the output file when several species are
    processed), the line "No results" in place of a header line and an
    empty line for the empty body, to the output file or, without one, to
    the console; the run goes on with the species that follow. *)
Theorem run_no_results int A98 S R self w sg pre spec rest w_pre sum_path :
  SpeciesToGenes.populate int (Scagaire.database_file self) = Ok sg ->
  Scagaire.species self = (pre ++ spec :: rest)%list ->
  Forall (fun s => s ∈ SpeciesToGenes.all_species sg) pre ->
  Scagaire.run_loop int A98 S R self sg pre w = Ok w_pre ->
  spec ∈ SpeciesToGenes.all_species sg ->
  FilterResults.filter_by_species int A98 S R (Scagaire.filter_results self) spec
    = Ok [] ->
  Scagaire.summary_file self = Some sum_path ->
  Scagaire.run int A98 S R self w =
  Scagaire.run_loop int A98 S R self sg rest
    (no_results_world self spec sum_path w_pre).
Proof.
  intros Hsg Hspecies Hpre Hrun Hspec Hfilter Hsum.
  unfold Scagaire.run. rewrite Hsg. simpl. rewrite Hspecies.
  rewrite run_loop_app by exact Hpre. rewrite Hrun. simpl.
  rewrite bool_decide_eq_false_2 by (intros Hnot; by apply Hnot).
  rewrite Hfilter. simpl.
  by rewrite (output_results_nil self spec sum_path w_pre Hsum).
Qed.

Lemma run_no_results_witness :
  Scagaire.run int_decimal Abricate098 Staramr Rgi sample_run empty_world
    = Ok (no_results_world sample_run "SpeciesX" "summary.tsv" empty_world) /\
  Scagaire.files (no_results_world sample_run "SpeciesX" "summary.tsv" empty_world)
    !! "filtered.tsv" = Some ("No results" ++ NL ++ NL) /\
  Scagaire.stdout (no_results_world sample_run_console "SpeciesX" "summary.tsv" empty_world)
    = "Results for species:" ++ TAB ++ "SpeciesX" ++ NL ++ Scagaire.separator ++ NL
      ++ "No results" ++ NL ++ NL.
Proof.
  split; [|split; vm_compute; reflexivity].
  assert (exists sg, SpeciesToGenes.populate int_decimal kb_file = Ok sg) as [sg Hsg]
    by (eexists; vm_compute; reflexivity).
  rewrite (run_no_results int_decimal Abricate098 Staramr Rgi sample_run empty_world
             sg [] "SpeciesX" [] empty_world "summary.tsv" Hsg).
  - reflexivity.
  - reflexivity.
  - constructor.
  - reflexivity.
  - revert Hsg. vm_compute. intros [= <-]. left.
  - vm_compute. reflexivity.
  - reflexivity.
Defined.

(** C9, counterexample. On the sample run no record is retained for
    SpeciesX; the output file then holds the line "No results" and an empty
    line, and does not start with the tab-joined column names of the
    detected dialect. *)
Lemma run_no_results_counterexample :
  FilterResults.filter_by_species int_decimal Abricate098 Staramr Rgi
    (Scagaire.filter_results sample_run) "SpeciesX" = Ok [] /\
  (fun w => Scagaire.files w !! "filtered.tsv")
    <$> Scagaire.run int_decimal Abricate098 Staramr Rgi sample_run empty_world
    = Ok (Some ("No results" ++ NL ++ NL)) /\
  String.prefix (String.concat TAB legacy_header) ("No results" ++ NL ++ NL) = false.
Proof. repeat split; vm_compute; reflexivity. Qed.

(** * Further properties of the parsers *)

(** X1. Validation answers [True] exactly when the header of the file is a
    prefix of the expected header: the expected header itself, or the
    expected header cut short. *)
Theorem is_valid_true_iff_prefix self :
  is_valid self = Ok true <-> parser_header self `prefix_of` default_header self.
Proof. unfold is_valid. by rewrite is_valid_from_true, drop_0. Qed.

(** X2. Validation raises exactly when the header of the file is the
    expected header followed by at least one more column, and the exception
    is then [IndexError]. *)
Theorem is_valid_raises_iff_extension self e :
  is_valid self = Raise e <->
  e = IndexError /\
  exists extra, extra <> [] /\ parser_header self = (default_header self ++ extra)%list.
Proof. unfold is_valid. by rewrite is_valid_from_raise, drop_0. Qed.

(** X3. A header with as many columns as the expected header and different
    from it, such as the expected columns in another order, is rejected with
    the answer [False]. *)
Theorem is_valid_rejects_same_length self :
  length (parser_header self) = length (default_header self) ->
  parser_header self <> default_header self ->
  is_valid self = Ok false.
Proof. intros Hlen Hne. by apply is_valid_from_same_length. Qed.

Lemma is_valid_rejects_same_length_witness :
  swapped_header ≡ₚ legacy_header /\
  is_valid (legacy_parser swapped_header) = Ok false.
Proof.
  split.
  - unfold swapped_header, legacy_header. simpl. apply perm_swap.
  - apply (is_valid_rejects_same_length (legacy_parser swapped_header)).
    + reflexivity.
    + discriminate.
Defined.

Section parser_rows_facts.
Implicit Types (self : AmrParser) (row : list string) (r : AmrResult).

Lemma parser_populate_rows_short_row cls self pre row post :
  length row < minimum_num_columns self ->
  populate_rows cls self (pre ++ row :: post) = populate_rows cls self (pre ++ post).
Proof.
  intros Hshort. induction pre as [|x pre IH]; simpl.
  - by rewrite bool_decide_eq_true_2.
  - by rewrite IH.
Qed.

(** Walking a row from a position inside the header raises exactly when the
    row reaches past the end of the header. *)
Lemma map_columns_raise self row : forall i r e,
  i <= length (parser_header self) ->
  map_columns self i row r = Raise e <->
  e = IndexError /\ length (parser_header self) < i + length row.
Proof.
  induction row as [|v row IH]; intros i r e Hi; simpl.
  - split; [done | intros [_ ?]; lia].
  - unfold index. destruct (parser_header self !! i) as [column|] eqn:Hcol; simpl.
    + apply lookup_lt_Some in Hcol.
      destruct (column_to_variable_mapping self !! column);
        rewrite IH by lia; split; intros [-> ?]; (split; [done | lia]).
    + apply lookup_ge_None in Hcol.
      split; [intros [= <-]; split; [done | lia] | by intros [-> _]].
Qed.

Lemma populate_rows_raise cls self rows e :
  populate_rows cls self rows = Raise e <->
  e = IndexError /\
  Exists (fun row => minimum_num_columns self <= length row /\
                     length (parser_header self) < length row) rows.
Proof.
  induction rows as [|row rows IH]; simpl.
  - rewrite Exists_nil. split; [done | tauto].
  - rewrite Exists_cons. case_bool_decide as Hshort.
    + rewrite IH. split; [tauto|]. intros [-> [[? _]|?]]; [lia | done].
    + destruct (map_columns self 0 row (new_result cls (default_header self)))
        as [ab_result|e'] eqn:Hrow; simpl.
      * assert (Hfits : ~ length (parser_header self) < length row).
        { intros Hlong.
          assert (Hr : map_columns self 0 row (new_result cls (default_header self))
                       = Raise IndexError)
            by (apply map_columns_raise; [lia | done]).
          congruence. }
        destruct (populate_rows cls self rows) as [others|e''] eqn:Hrest; simpl.
        -- split; [done|]. intros [-> [[_ ?]|Hex]]; [done|].
           by pose proof (proj2 IH (conj eq_refl Hex)).
        -- rewrite IH. split; [intros [-> ?]; split; [done | by right]|].
           intros [-> [[_ ?]|?]]; done.
      * apply map_columns_raise in Hrow as [-> Hlong]; [|lia].
        split; [intros [= <-]; split; [done | left; lia] | by intros [-> _]].
Qed.
End parser_rows_facts.

(** X4. Rows with fewer fields than the dialect's minimum column count, such
    as blank or truncated lines, are invisible to the parser: the file with
    such a row among its data rows is parsed as the file without it. *)
Theorem new_parser_skips_short_row d hdr pre row post :
  length row < d_minimum_num_columns d ->
  new_parser d (hdr :: pre ++ row :: post) = new_parser d (hdr :: pre ++ post).
Proof.
  intros Hshort. unfold new_parser, populate_results. simpl.
  by rewrite parser_populate_rows_short_row.
Qed.

Lemma new_parser_skips_short_row_witness :
  Abricate097 [legacy_header; legacy_row "geneA"; ["sample.fa"; "contig1"];
               legacy_row "geneB"]
  = Abricate097 [legacy_header; legacy_row "geneA"; legacy_row "geneB"].
Proof.
  apply (new_parser_skips_short_row Abricate097_dialect legacy_header
           [legacy_row "geneA"] ["sample.fa"; "contig1"] [legacy_row "geneB"]).
  vm_compute. lia.
Defined.

(** X5. Once the file has been read into a header row and data rows, the
    parser fails to build its records exactly when a data row that is not
    skipped as too short has more fields than the header row; the exception
    is then [IndexError], raised where the column title of the field is
    looked up. *)
Theorem new_parser_raises_iff d hdr rows e :
  new_parser d (hdr :: rows) = Raise e <->
  e = IndexError /\
  Exists (fun row => d_minimum_num_columns d <= length row /\
                     length hdr < length row) rows.
Proof.
  unfold new_parser, populate_results. simpl.
  match goal with
  | |- context [populate_rows ?c ?p rows] =>
      pose proof (populate_rows_raise c p rows) as Hraise;
      destruct (populate_rows c p rows) as [rs|e'] eqn:Hrows
  end; simpl in *.
  - split; [done|]. intros [-> Hex].
    by pose proof (proj2 (Hraise IndexError) (conj eq_refl Hex)).
  - destruct (proj1 (Hraise e') eq_refl) as [-> Hex].
    split; [intros [= <-]; by split | by intros [-> _]].
Qed.

Section parser_records_facts.
Implicit Types (self : AmrParser) (row : list string) (r : AmrResult).

(** Walking a row changes nothing of a record but its data attributes. *)
Lemma map_columns_frame self row : forall i r r',
  map_columns self i row r = Ok r' ->
  result_class r' = result_class r /\ header r' = header r /\
  delimiter r' = delimiter r.
Proof.
  induction row as [|v row IH]; intros i r r'; simpl.
  - by intros [= <-].
  - unfold index. destruct (parser_header self !! i) as [column|]; [|done]. simpl.
    destruct (column_to_variable_mapping self !! column) as [variable_name|];
      intros Hrun; apply IH in Hrun; done.
Qed.

Lemma populate_rows_records cls self rows rs :
  populate_rows cls self rows = Ok rs ->
  Forall (fun r => result_class r = cls /\ header r = default_header self /\
                   delimiter r = TAB) rs /\
  length rs = length (filter (fun row => minimum_num_columns self <= length row) rows).
Proof.
  revert rs. induction rows as [|row rows IH]; intros rs; simpl.
  - by intros [= <-].
  - case_bool_decide as Hshort.
    + rewrite filter_cons_False by lia. apply IH.
    + rewrite filter_cons_True by lia.
      destruct (map_columns self 0 row (new_result cls (default_header self)))
        as [ab_result|] eqn:Hrow; [|done]. simpl.
      destruct (populate_rows cls self rows) as [others|]; [|done]. simpl.
      intros [= <-]. destruct (IH others eq_refl) as [Hall Hlen].
      apply map_columns_frame in Hrow as (? & ? & ?).
      split; [by constructor | simpl; by rewrite Hlen].
Qed.

(** The walk over a row made of two parts is the walk over the first part
    followed by the walk over the second. *)
Lemma map_columns_app self row1 row2 : forall i r,
  map_columns self i (row1 ++ row2) r =
  map_columns self i row1 r ≫= map_columns self (i + length row1) row2.
Proof.
  induction row1 as [|v row1 IH]; intros i r; simpl.
  - by rewrite Nat.add_0_r.
  - unfold index. destruct (parser_header self !! i) as [column|]; [|done]. simpl.
    destruct (column_to_variable_mapping self !! column);
      rewrite IH; by replace (S i + length row1) with (i + S (length row1)) by lia.
Qed.

(** Columns whose title the mapping does not know leave the record as it
    is. *)
Lemma map_columns_unmapped self row : forall i r,
  i + length row <= length (parser_header self) ->
  Forall (fun column => column_to_variable_mapping self !! column = None)
         (drop i (parser_header self)) ->
  map_columns self i row r = Ok r.
Proof.
  induction row as [|v row IH]; intros i r Hlen Hall; simpl; [done|].
  simpl in Hlen. unfold index.
  destruct (lookup_lt_is_Some_2 (parser_header self) i) as [column Hcol]; [lia|].
  rewrite Hcol. simpl. rewrite (drop_S _ _ _ Hcol) in Hall.
  apply Forall_cons in Hall as [-> Hall]. apply IH; [lia | done].
Qed.

(** The walk over a row reads the header only at the positions of the row. *)
Lemma map_columns_header self1 self2 row : forall i r,
  column_to_variable_mapping self1 = column_to_variable_mapping self2 ->
  (forall j, i <= j < i + length row ->
             parser_header self1 !! j = parser_header self2 !! j) ->
  map_columns self1 i row r = map_columns self2 i row r.
Proof.
  induction row as [|v row IH]; intros i r Hmap Hhdr; simpl; [done|].
  unfold index. rewrite (Hhdr i) by (simpl; lia).
  destruct (parser_header self2 !! i) as [column|]; [|done]. simpl.
  rewrite Hmap.
  destruct (column_to_variable_mapping self2 !! column);
    apply IH; try done; intros j Hj; apply Hhdr; simpl; lia.
Qed.
End parser_records_facts.

(** X6. Every record a parser returns carries the expected header of the
    dialect (not the header row of the file), the result class of the
    dialect and the tab delimiter; the parser keeps the header row of the
    file as its own header. *)
Theorem new_parser_records d input_file p :
  new_parser d input_file = Ok p ->
  default_header p = d_default_header d /\
  head input_file = Some (parser_header p) /\
  Forall (fun r => result_class r = d_class d /\ header r = d_default_header d /\
                   delimiter r = TAB) (results p).
Proof.
  unfold new_parser, populate_results.
  destruct input_file as [|hdr rows]; [done|]. simpl.
  match goal with
  | |- context [populate_rows ?c ?q rows] =>
      pose proof (populate_rows_records c q rows) as Hrecords;
      destruct (populate_rows c q rows) as [rs|]; [|done]
  end.
  simpl. intros [= <-]. simpl. destruct (Hrecords rs eq_refl) as [Hall _]. done.
Qed.

Lemma new_parser_records_witness :
  exists p,
    Abricate097 legacy_file_extra_column = Ok p /\
    Forall (fun r => header r = legacy_header) (results p) /\
    length (parser_header p) = 14.
Proof.
  assert (exists p, Abricate097 legacy_file_extra_column = Ok p) as [p Hp].
  { eexists. vm_compute. reflexivity. }
  exists p. split; [exact Hp|].
  destruct (new_parser_records Abricate097_dialect legacy_file_extra_column p Hp)
    as (_ & Hhead & Hall).
  split.
  - eapply Forall_impl; [exact Hall|]. by intros r (_ & ? & _).
  - by injection Hhead as <-.
Defined.

(** X7. A parser returns one record per data row that has at least the
    minimum number of columns. *)
Theorem new_parser_record_count d hdr rows p :
  new_parser d (hdr :: rows) = Ok p ->
  length (results p) =
  length (filter (fun row => d_minimum_num_columns d <= length row) rows).
Proof.
  unfold new_parser, populate_results. simpl.
  match goal with
  | |- context [populate_rows ?c ?q rows] =>
      pose proof (populate_rows_records c q rows) as Hrecords;
      destruct (populate_rows c q rows) as [rs|]; [|done]
  end.
  simpl. intros [= <-]. simpl. by destruct (Hrecords rs eq_refl) as [_ ->].
Qed.

Lemma new_parser_record_count_witness :
  exists p, Abricate097 legacy_file_short_rows = Ok p /\ length (results p) = 3.
Proof.
  assert (exists p, Abricate097 legacy_file_short_rows = Ok p) as [p Hp].
  { eexists. vm_compute. reflexivity. }
  exists p. split; [exact Hp|].
  rewrite (new_parser_record_count Abricate097_dialect legacy_header
             (tail legacy_file_short_rows) p Hp).
  reflexivity.
Defined.

(** Trailing columns that a dialect does not know are dropped, for every
    dialect whose constants map the columns of its expected header, in
    order, to the attributes its record class prints. *)
Lemma new_parser_extra_columns_aligned d extra (rows : list (list string * list string)) :
  aligned d = true ->
  Forall (fun column =>
            (list_to_map (d_mapping d) : gmap string string) !! column = None) extra ->
  Forall (fun row => length row.1 = length (d_default_header d) /\
                     length row.2 <= length extra) rows ->
  exists p,
    new_parser d ((d_default_header d ++ extra)%list
                    :: ((fun row => (row.1 ++ row.2)%list) <$> rows)) = Ok p /\
    mapM str (results p) = Ok ((fun row => String.concat TAB row.1) <$> rows).
Proof.
  intros Haligned Hextra Hrows.
  unfold new_parser, populate_results. simpl.
  match goal with
  | |- context [populate_rows _ ?q _] => set (self := q)
  end.
  assert (Hparse : exists rs,
             populate_rows (d_class d) self ((fun row => (row.1 ++ row.2)%list) <$> rows)
             = Ok rs /\
             mapM str rs = Ok ((fun row => String.concat TAB row.1) <$> rows)).
  { induction Hrows as [|[fields rest] rows [Hfields Hrest] _ (rs & Hrs & Hstr)].
    - by exists [].
    - simpl in Hfields, Hrest. rewrite !fmap_cons. cbn [populate_rows fst snd].
      rewrite bool_decide_eq_false_2.
      2:{ rewrite length_app, Hfields. simpl.
          pose proof (aligned_minimum d Haligned). lia. }
      destruct (map_columns_str d Haligned fields Hfields) as (r & Hrun & _ & Hr).
      rewrite map_columns_app.
      change (default_header self) with (d_default_header d).
      rewrite (map_columns_header self
                 {| minimum_num_columns := d_minimum_num_columns d;
                    default_header := d_default_header d;
                    parser_header := d_default_header d;
                    column_to_variable_mapping := list_to_map (d_mapping d);
                    results := [] |} fields 0 _ eq_refl), Hrun.
      2:{ intros j Hj. simpl. apply lookup_app_l. lia. }
      simpl. rewrite map_columns_unmapped.
      + simpl. rewrite Hrs. simpl. exists (r :: rs). split; [done|].
        change (mapM str (r :: rs))
          with (str r ≫= fun y => mapM str rs ≫= fun k => mret (y :: k)).
        rewrite Hr. simpl. rewrite Hstr. reflexivity.
      + simpl. rewrite length_app. lia.
      + simpl. rewrite Hfields, drop_app_length. exact Hextra. }
  destruct Hparse as (rs & Hrs & Hstr). rewrite Hrs. simpl.
  eexists. split; [reflexivity | exact Hstr].
Qed.

(** X8. Trailing columns that the legacy dialect does not know are dropped:
    when the header row is the expected legacy header followed by titles
    outside the mapping of the legacy parser, and every data row holds one
    field per expected column followed by at most as many fields as there
    are extra titles, each row is parsed into a record that prints as its
    expected fields joined by tabs. *)
Theorem new_parser_ignores_extra_columns extra (rows : list (list string * list string)) :
  Forall (fun column =>
            (list_to_map (d_mapping Abricate097_dialect) : gmap string string)
              !! column = None) extra ->
  Forall (fun row => length row.1 = length legacy_header /\
                     length row.2 <= length extra) rows ->
  exists p,
    Abricate097 ((legacy_header ++ extra)%list
                   :: ((fun row => (row.1 ++ row.2)%list) <$> rows)) = Ok p /\
    mapM str (results p) = Ok ((fun row => String.concat TAB row.1) <$> rows).
Proof.
  intros Hextra Hrows.
  apply (new_parser_extra_columns_aligned Abricate097_dialect extra rows);
    [vm_compute; reflexivity | exact Hextra | exact Hrows].
Qed.

Lemma new_parser_ignores_extra_columns_witness :
  exists p,
    Abricate097 legacy_file_extra_column = Ok p /\
    mapM str (results p) =
    Ok [String.concat TAB (legacy_row "geneA"); String.concat TAB (legacy_row "geneB")].
Proof.
  destruct (new_parser_ignores_extra_columns ["NOTES"]
              [(legacy_row "geneA", ["checked"]); (legacy_row "geneB", [])])
    as (p & Hp & Hstr).
  - repeat constructor.
  - repeat constructor.
  - exists p. split; [exact Hp | exact Hstr].
Defined.

(** * Further properties of the auto-detector *)

(** X9. When the header validates for the current Abricate dialect, its
    records are returned whatever the hint is, and the other three parsers
    are not consulted. *)
Theorem get_results_current_valid A98 S R input_file results_type a :
  A98 input_file = Ok a -> is_valid a = Ok true ->
  IdentifyResults.get_results A98 S R input_file results_type = Ok (results a).
Proof.
  intros Ha Hva. unfold IdentifyResults.get_results.
  rewrite Ha; simpl. rewrite Hva; simpl. reflexivity.
Qed.

Lemma get_results_current_valid_witness :
  IdentifyResults.get_results Abricate098 Staramr Rgi current_file (Some "rgi")
  = results <$> Abricate098 current_file.
Proof.
  assert (exists a, Abricate098 current_file = Ok a) as [a Ha].
  { eexists. vm_compute. reflexivity. }
  rewrite (get_results_current_valid Abricate098 Staramr Rgi current_file
             (Some "rgi") a Ha).
  - rewrite Ha. reflexivity.
  - revert Ha. vm_compute. intros [= <-]. reflexivity.
Defined.

(** X10. When the four parsers load the file, none of the four validations
    succeeds and the hint, if any, is none of "abricate", "staramr" and
    "rgi", the auto-detector returns the empty list. *)
Theorem get_results_no_match A98 S R input_file results_type a a7 s r :
  results_type ∉ [Some "abricate"; Some "staramr"; Some "rgi"] ->
  A98 input_file = Ok a -> is_valid a = Ok false ->
  Abricate097 input_file = Ok a7 -> is_valid a7 = Ok false ->
  S input_file = Ok s -> is_valid s = Ok false ->
  R input_file = Ok r -> is_valid r = Ok false ->
  IdentifyResults.get_results A98 S R input_file results_type = Ok [].
Proof.
  intros Hhint Ha Hva Ha7 Hva7 Hs Hvs Hr Hvr.
  rewrite !not_elem_of_cons in Hhint. destruct Hhint as (H1 & H2 & H3 & _).
  unfold IdentifyResults.get_results.
  rewrite Ha; simpl. rewrite Hva; simpl.
  rewrite Ha7; simpl. rewrite Hva7; simpl.
  rewrite Hs; simpl. rewrite Hvs; simpl.
  rewrite Hr; simpl. rewrite Hvr; simpl.
  by rewrite !bool_decide_eq_false_2.
Qed.

Lemma get_results_no_match_witness :
  IdentifyResults.get_results Abricate098 Staramr Rgi unknown_file None = Ok [].
Proof.
  assert (exists a, Abricate098 unknown_file = Ok a) as [a Ha]
    by (eexists; vm_compute; reflexivity).
  assert (exists a7, Abricate097 unknown_file = Ok a7) as [a7 Ha7]
    by (eexists; vm_compute; reflexivity).
  assert (exists s, Staramr unknown_file = Ok s) as [s Hs]
    by (eexists; vm_compute; reflexivity).
  assert (exists r, Rgi unknown_file = Ok r) as [r Hr]
    by (eexists; vm_compute; reflexivity).
  apply (get_results_no_match Abricate098 Staramr Rgi unknown_file None a a7 s r);
    try assumption.
  - rewrite !not_elem_of_cons. repeat split; try discriminate. apply not_elem_of_nil.
  - revert Ha. vm_compute. intros [= <-]. reflexivity.
  - revert Ha7. vm_compute. intros [= <-]. reflexivity.
  - revert Hs. vm_compute. intros [= <-]. reflexivity.
  - revert Hr. vm_compute. intros [= <-]. reflexivity.
Defined.

(** X11. A hint other than "abricate", "staramr" and "rgi" has the effect
    of no hint. *)
Theorem get_results_unknown_hint A98 S R input_file hint :
  hint <> "abricate" -> hint <> "staramr" -> hint <> "rgi" ->
  IdentifyResults.get_results A98 S R input_file (Some hint) =
  IdentifyResults.get_results A98 S R input_file None.
Proof.
  intros H1 H2 H3. unfold IdentifyResults.get_results.
  rewrite !(bool_decide_eq_false_2 (Some hint = Some _)) by congruence.
  rewrite !(bool_decide_eq_false_2 (None = Some _)) by congruence.
  reflexivity.
Qed.

Lemma get_results_unknown_hint_witness :
  IdentifyResults.get_results Abricate098 Staramr Rgi legacy_file (Some "card") =
  IdentifyResults.get_results Abricate098 Staramr Rgi legacy_file None.
Proof.
  apply (get_results_unknown_hint Abricate098 Staramr Rgi legacy_file "card");
    discriminate.
Defined.

(** * Further properties of the knowledge base *)

(** X12. The load succeeds exactly when every data row of at least three
    fields stands for an entry, that is, has a field at position 4 and an
    integer count; the knowledge base is then the list of these entries in
    file order. Otherwise the whole load fails. *)
Theorem populate_rows_entries int rows :
  from_ok (SpeciesToGenes.populate_rows int rows) =
  mapM (entry_of_row int)
       (filter (fun row => SpeciesToGenes.minimum_num_columns <= length row) rows).
Proof.
  induction rows as [|row rows IH]; [done|].
  cbn [SpeciesToGenes.populate_rows]. case_bool_decide as Hshort.
  - rewrite filter_cons_False by lia. exact IH.
  - rewrite filter_cons_True by lia.
    change (mapM (entry_of_row int) (row :: ?l))
      with (entry_of_row int row ≫= fun y => mapM (entry_of_row int) l ≫= fun k => mret (y :: k)).
    rewrite <- IH. unfold entry_of_row, index, SpeciesToGenes.to_int.
    destruct (row !! 0); [|done]. simpl.
    destruct (row !! 1); [|done]. simpl.
    destruct (row !! 2) as [count|]; [|done]. simpl.
    destruct (int count); [|done]. simpl.
    destruct (row !! 4); [|done]. simpl.
    by destruct (SpeciesToGenes.populate_rows int rows).
Qed.

Lemma populate_Ok_entry int hdr rows kb row :
  SpeciesToGenes.populate int (hdr :: rows) = Ok kb ->
  row ∈ rows -> SpeciesToGenes.minimum_num_columns <= length row ->
  is_Some (entry_of_row int row).
Proof.
  unfold SpeciesToGenes.populate. simpl. intros Hload Hrow Hlong.
  pose proof (populate_rows_entries int rows) as Hentries.
  rewrite Hload in Hentries. simpl in Hentries.
  assert (Hall : is_Some (mapM (entry_of_row int)
                   (filter (fun row => SpeciesToGenes.minimum_num_columns <= length row)
                           rows))) by (rewrite <- Hentries; eauto).
  rewrite mapM_is_Some, Forall_forall in Hall.
  apply Hall. by apply list_elem_of_filter.
Qed.

(** X13. A data row of three or four fields is not skipped and makes the
    whole load fail, wherever it stands in the file: the database name is
    read at position 4. *)
Theorem populate_fails_on_four_columns int hdr pre row post kb :
  SpeciesToGenes.minimum_num_columns <= length row -> length row < 5 ->
  SpeciesToGenes.populate int (hdr :: pre ++ row :: post) <> Ok kb.
Proof.
  intros Hlong Hshort Hload.
  destruct (populate_Ok_entry int hdr (pre ++ row :: post) kb row Hload) as [e He].
  - apply elem_of_app. right. by left.
  - exact Hlong.
  - unfold entry_of_row in He.
    rewrite (lookup_ge_None_2 row 4) in He by lia.
    by destruct (row !! 0), (row !! 1), (row !! 2 ≫= int).
Qed.

Lemma populate_fails_on_four_columns_witness :
  SpeciesToGenes.populate int_decimal kb_file_four_columns = Raise IndexError /\
  forall kb, SpeciesToGenes.populate int_decimal kb_file_four_columns <> Ok kb.
Proof.
  split; [vm_compute; reflexivity|]. intros kb.
  apply (populate_fails_on_four_columns int_decimal kb_header
           [kb_row "SpeciesX" "geneA" "5" "db1"]
           ["SpeciesX"; "geneB"; "1"; "abricate"] [] kb).
  - vm_compute. lia.
  - vm_compute. lia.
Defined.

(** X14. A data row of at least three fields whose count is not an integer
    makes the whole load fail, wherever it stands in the file. *)
Theorem populate_fails_on_bad_count int hdr pre row post count kb :
  row !! 2 = Some count -> int count = None ->
  SpeciesToGenes.populate int (hdr :: pre ++ row :: post) <> Ok kb.
Proof.
  intros Hcount Hint Hload.
  destruct (populate_Ok_entry int hdr (pre ++ row :: post) kb row Hload) as [e He].
  - apply elem_of_app. right. by left.
  - apply lookup_lt_Some in Hcount. unfold SpeciesToGenes.minimum_num_columns. lia.
  - unfold entry_of_row in He. rewrite Hcount in He. simpl in He.
    rewrite Hint in He. by destruct (row !! 0), (row !! 1).
Qed.

Lemma populate_fails_on_bad_count_witness :
  SpeciesToGenes.populate int_decimal kb_file_bad_count = Raise ValueError /\
  forall kb, SpeciesToGenes.populate int_decimal kb_file_bad_count <> Ok kb.
Proof.
  split; [vm_compute; reflexivity|]. intros kb.
  apply (populate_fails_on_bad_count int_decimal kb_header
           [kb_row "SpeciesX" "geneA" "5" "db1"]
           (kb_row "SpeciesX" "geneB" "many" "db1") [] "many" kb).
  - reflexivity.
  - vm_compute. reflexivity.
Defined.

Section sorted_set_facts.
Implicit Types (xs : list string) (x : string).

#[local] Instance str_le_total : Total SpeciesToGenes.str_le.
Proof. intros a b. apply String.leb_total. Qed.

Lemma sorted_set_elem_of xs x : x ∈ SpeciesToGenes.sorted_set xs <-> x ∈ xs.
Proof.
  unfold SpeciesToGenes.sorted_set.
  by rewrite merge_sort_Permutation, elem_of_remove_dups.
Qed.

Lemma sorted_set_NoDup xs : NoDup (SpeciesToGenes.sorted_set xs).
Proof.
  unfold SpeciesToGenes.sorted_set.
  rewrite merge_sort_Permutation. apply NoDup_remove_dups.
Qed.

Lemma sorted_set_Sorted xs : Sorted SpeciesToGenes.str_le (SpeciesToGenes.sorted_set xs).
Proof. unfold SpeciesToGenes.sorted_set. apply (Sorted_merge_sort _). Qed.

Lemma sorted_set_length xs :
  length (SpeciesToGenes.sorted_set xs) = size (list_to_set xs : gset string).
Proof.
  unfold SpeciesToGenes.sorted_set. rewrite merge_sort_Permutation.
  rewrite <- (size_list_to_set (C:=gset string)) by apply NoDup_remove_dups.
  f_equal. apply set_eq. intros x.
  by rewrite !elem_of_list_to_set, elem_of_remove_dups.
Qed.
End sorted_set_facts.

(** X15. The list of all species is sorted in code-point order, has no
    duplicates, and holds exactly the species names that occur in the
    knowledge base; its length is the number of distinct species. *)
Theorem all_species_sorted_distinct kb :
  Sorted SpeciesToGenes.str_le (SpeciesToGenes.all_species kb) /\
  NoDup (SpeciesToGenes.all_species kb) /\
  (forall x, x ∈ SpeciesToGenes.all_species kb <-> exists e, e ∈ kb /\ sg_species e = x) /\
  SpeciesToGenes_queries.num_of_all_species kb =
    size (list_to_set (sg_species <$> kb) : gset string).
Proof.
  unfold SpeciesToGenes_queries.num_of_all_species, SpeciesToGenes.all_species.
  split; [apply sorted_set_Sorted|]. split; [apply sorted_set_NoDup|].
  split; [|apply sorted_set_length].
  intros x. rewrite sorted_set_elem_of, list_elem_of_fmap. split.
  - intros (e & -> & ?). by exists e.
  - intros (e & ? & <-). by exists e.
Qed.

(** X16. The databases listed for a species are exactly the database names
    of the entries of that species; they are among all databases, and the
    list is empty exactly for a species the knowledge base does not know. *)
Theorem species_databases_members kb query :
  (forall d, d ∈ SpeciesToGenes_queries.species_databases kb query <->
             exists e, e ∈ kb /\ sg_species e = query /\ sg_database_name e = d) /\
  SpeciesToGenes_queries.species_databases kb query
    ⊆ SpeciesToGenes_queries.all_databases kb /\
  (SpeciesToGenes_queries.species_databases kb query = [] <->
   query ∉ SpeciesToGenes.all_species kb).
Proof.
  assert (Hmem : forall d,
    d ∈ SpeciesToGenes_queries.species_databases kb query <->
    exists e, e ∈ kb /\ sg_species e = query /\ sg_database_name e = d).
  { intros d. unfold SpeciesToGenes_queries.species_databases.
    rewrite sorted_set_elem_of, list_elem_of_fmap. split.
    - intros (e & -> & [? ?]%list_elem_of_filter). by exists e.
    - intros (e & ? & ? & <-). exists e. split; [done|].
      by apply list_elem_of_filter. }
  split; [exact Hmem|]. split.
  - intros d (e & ? & _ & <-)%Hmem.
    unfold SpeciesToGenes_queries.all_databases.
    rewrite sorted_set_elem_of, list_elem_of_fmap. by exists e.
  - unfold SpeciesToGenes.all_species.
    rewrite sorted_set_elem_of, list_elem_of_fmap. split.
    + intros Hnil (e & -> & He).
      assert (Hin : sg_database_name e
                    ∈ SpeciesToGenes_queries.species_databases kb (sg_species e))
        by (apply Hmem; by exists e).
      rewrite Hnil in Hin. by apply not_elem_of_nil in Hin.
    + intros Hnot. apply elem_of_nil_inv. intros d Hin.
      apply Hmem in Hin as (e & ? & <- & _). apply Hnot. by exists e.
Qed.

(** * Further properties of the filter *)

Lemma filter_by_species_unfold int A98 S R self species all_results kb :
  IdentifyResults.get_results A98 S R
    (FilterResults.results_filename self) (FilterResults.results_type self)
    = Ok all_results ->
  SpeciesToGenes.populate int (FilterResults.database_filename self) = Ok kb ->
  FilterResults.filter_by_species int A98 S R self species =
  Ok (filter (fun r => FilterResults.in_dict
                         (FilterResults.genes_to_occurances
                            (FilterResults.minimum_occurances self)
                            (SpeciesToGenes.filter_by_species kb species
                               (FilterResults.database_name self)))
                         (gene r)) all_results).
Proof.
  intros Hres Hkb. unfold FilterResults.filter_by_species.
  rewrite Hres; simpl. rewrite Hkb; simpl. reflexivity.
Qed.

(** X17. Filtering by a species that the knowledge base does not contain
    returns the empty list, without an error. *)
Theorem filter_by_species_unknown_species int A98 S R self species all_results kb :
  IdentifyResults.get_results A98 S R
    (FilterResults.results_filename self) (FilterResults.results_type self)
    = Ok all_results ->
  SpeciesToGenes.populate int (FilterResults.database_filename self) = Ok kb ->
  species ∉ SpeciesToGenes.all_species kb ->
  FilterResults.filter_by_species int A98 S R self species = Ok [].
Proof.
  intros Hres Hkb Hunknown.
  rewrite (filter_by_species_unfold _ _ _ _ _ _ _ _ Hres Hkb). f_equal.
  apply elem_of_nil_inv. intros r [Hin _]%list_elem_of_filter.
  apply in_dict_known, Exists_exists in Hin as (e & He & <- & _).
  apply Hunknown. unfold SpeciesToGenes.all_species.
  rewrite sorted_set_elem_of, list_elem_of_fmap. by exists e.
Qed.

Lemma filter_by_species_unknown_species_witness :
  FilterResults.filter_by_species int_decimal Abricate098 Staramr Rgi
    (sample_filter kb_file) "SpeciesY" = Ok [].
Proof.
  assert (exists rs, IdentifyResults.get_results Abricate098 Staramr Rgi
                       legacy_file None = Ok rs) as [rs Hrs]
    by (eexists; vm_compute; reflexivity).
  assert (exists kb, SpeciesToGenes.populate int_decimal kb_file = Ok kb) as [kb Hkb]
    by (eexists; vm_compute; reflexivity).
  apply (filter_by_species_unknown_species int_decimal Abricate098 Staramr Rgi
           (sample_filter kb_file) "SpeciesY" rs kb Hrs Hkb).
  revert Hkb. vm_compute. intros [= <-] Hin.
  repeat (apply elem_of_cons in Hin as [Hin|Hin]; [discriminate|]).
  by apply not_elem_of_nil in Hin.
Defined.

(** X18. Raising the minimum-occurrence threshold can only remove records:
    the result for the larger threshold is the result for the smaller one
    with some records left out, in the same order. *)
Theorem filter_by_species_threshold_monotone int A98 S R self species
    all_results kb (low high : Z) :
  IdentifyResults.get_results A98 S R
    (FilterResults.results_filename self) (FilterResults.results_type self)
    = Ok all_results ->
  SpeciesToGenes.populate int (FilterResults.database_filename self) = Ok kb ->
  (low <= high)%Z ->
  exists kept_low kept_high,
    FilterResults.filter_by_species int A98 S R (with_minimum self low) species
      = Ok kept_low /\
    FilterResults.filter_by_species int A98 S R (with_minimum self high) species
      = Ok kept_high /\
    kept_high `sublist_of` kept_low.
Proof.
  intros Hres Hkb Hle.
  rewrite (filter_by_species_unfold int A98 S R (with_minimum self low) species
             all_results kb Hres Hkb).
  rewrite (filter_by_species_unfold int A98 S R (with_minimum self high) species
             all_results kb Hres Hkb).
  do 2 eexists. split; [reflexivity|]. split; [reflexivity|]. simpl.
  clear Hres. induction all_results as [|r rs IH]; [done|].
  rewrite !filter_cons.
  destruct (decide (FilterResults.in_dict
                      (FilterResults.genes_to_occurances high _) (gene r))) as [Hhigh|_].
  - rewrite decide_True; [by apply sublist_skip|].
    apply in_dict_known. apply in_dict_known in Hhigh.
    unfold known_gene in *. eapply Exists_impl; [exact Hhigh|].
    simpl. intros e (? & ? & ? & ?). repeat split; try done. lia.
  - case_decide; [by apply sublist_cons | exact IH].
Qed.

Lemma filter_by_species_threshold_monotone_witness :
  exists kept_low kept_high,
    FilterResults.filter_by_species int_decimal Abricate098 Staramr Rgi
      (with_minimum (sample_filter kb_file) 1) "SpeciesX" = Ok kept_low /\
    FilterResults.filter_by_species int_decimal Abricate098 Staramr Rgi
      (with_minimum (sample_filter kb_file) 3) "SpeciesX" = Ok kept_high /\
    kept_high `sublist_of` kept_low.
Proof.
  assert (exists rs, IdentifyResults.get_results Abricate098 Staramr Rgi
                       legacy_file None = Ok rs) as [rs Hrs]
    by (eexists; vm_compute; reflexivity).
  assert (exists kb, SpeciesToGenes.populate int_decimal kb_file = Ok kb) as [kb Hkb]
    by (eexists; vm_compute; reflexivity).
  apply (filter_by_species_threshold_monotone int_decimal Abricate098 Staramr Rgi
           (sample_filter kb_file) "SpeciesX" rs kb 1 3 Hrs Hkb).
  lia.
Defined.

(** * Further properties of the summary *)

Section summary_total_facts.
Implicit Types (keys : list (option string)) (d : Summary.dict).

Lemma sum_summary_counts (count : option string -> Z) (ks : list (option string)) :
  foldr Z.add 0%Z
    (occurances <$> ((fun k => (k, {| gene_name := k; occurances := count k |})) <$> ks).*2)
  = foldr Z.add 0%Z (count <$> ks).
Proof.
  induction ks as [|k ks IH]; [done|].
  rewrite !fmap_cons. cbn [foldr snd occurances]. by rewrite IH.
Qed.

Lemma sum_occurrences_snoc keys x (ks : list (option string)) :
  NoDup ks ->
  foldr Z.add 0%Z ((fun k => occurrences k (keys ++ [x])) <$> ks)
  = (foldr Z.add 0%Z ((fun k => occurrences k keys) <$> ks)
     + if decide (x ∈ ks) then 1 else 0)%Z.
Proof.
  induction 1 as [|k ks Hk Hnd IH]; [done|].
  rewrite !fmap_cons. cbn [foldr]. rewrite IH, occurrences_snoc.
  destruct (decide (x = k)) as [->|Hne].
  - rewrite (decide_False (P := k ∈ ks)) by done.
    rewrite decide_True by (by left). lia.
  - destruct (decide (x ∈ ks)) as [Hin|Hnin].
    + rewrite decide_True by (by right). lia.
    + rewrite decide_False by (rewrite elem_of_cons; intuition congruence). lia.
Qed.

(** The counts of a summary add up to the number of names summarised. *)
Lemma summary_of_total keys :
  foldr Z.add 0%Z (occurances <$> (summary_of keys).*2) = Z.of_nat (length keys).
Proof.
  unfold summary_of. rewrite sum_summary_counts.
  induction keys as [|x keys IH] using rev_ind; [done|].
  rewrite first_occurrences_snoc, length_app. cbn [length].
  destruct (decide (x ∈ keys)) as [Hin|Hnin].
  - rewrite sum_occurrences_snoc by apply NoDup_first_occurrences.
    rewrite decide_True by (by apply elem_of_first_occurrences). lia.
  - rewrite fmap_app, foldr_app, fmap_cons, fmap_nil. cbn [foldr].
    rewrite occurrences_snoc, decide_True, occurrences_not_elem_of by done.
    assert (Hshift : forall (z : Z) (l : list Z),
              foldr Z.add z l = (foldr Z.add 0 l + z)%Z).
    { intros z l. induction l as [|a l IHl]; simpl; lia. }
    rewrite Hshift, sum_occurrences_snoc by apply NoDup_first_occurrences.
    rewrite decide_False by (by rewrite elem_of_first_occurrences). lia.
Qed.
End summary_total_facts.

(** X19. The counts of the summary add up to the number of records
    summarised, and the summary is empty exactly for the empty list. *)
Theorem aggregate_results_total results :
  foldr Z.add 0%Z (occurances <$> (Summary.aggregate_results results).*2)
    = Z.of_nat (length results) /\
  (Summary.aggregate_results results = [] <-> results = []).
Proof.
  assert (Heq : Summary.aggregate_results results = summary_of (gene <$> results)).
  { unfold Summary.aggregate_results.
    change (@nil (option string * SummaryResult)) with (summary_of []).
    by rewrite foldl_aggregate_step. }
  rewrite Heq, summary_of_total, length_fmap. split; [done|].
  destruct results as [|r rs]; [done|]. split; [|done].
  unfold summary_of. simpl. done.
Qed.

(** * Properties of the database builder *)

Section freq_facts.
Implicit Types (keys ks : list (option string)) (x k : option string).

Lemma freq_increment_fmap (count : option string -> Z) ks x :
  NoDup ks ->
  ScagaireDownload.increment x ((fun k => (k, count k)) <$> ks) =
  (fun k => (k, (count k + if decide (x = k) then 1 else 0)%Z)) <$> ks.
Proof.
  induction 1 as [|k ks Hnin Hnd IH]; [done|].
  rewrite !fmap_cons. cbn [ScagaireDownload.increment].
  destruct (decide (k = x)) as [->|Hne].
  - rewrite decide_True by done. f_equal.
    apply list_fmap_ext. intros i k Hk.
    rewrite decide_False; [by rewrite Z.add_0_r|].
    intros ->. apply Hnin. eapply list_elem_of_lookup_2. exact Hk.
  - rewrite decide_False by done. rewrite Z.add_0_r, IH. reflexivity.
Qed.

Lemma freq_of_keys keys : (freq_of keys).*1 = first_occurrences keys.
Proof.
  unfold freq_of. rewrite <- list_fmap_compose.
  rewrite <- (list_fmap_id (first_occurrences keys)) at 2.
  apply list_fmap_ext. done.
Qed.

Lemma count_result_freq_of keys r :
  ScagaireDownload.count_result (freq_of keys) r = freq_of (keys ++ [gene r]).
Proof.
  unfold ScagaireDownload.count_result. rewrite freq_of_keys.
  case_bool_decide as Hin; rewrite elem_of_first_occurrences in Hin;
    unfold freq_of; rewrite first_occurrences_snoc.
  - rewrite decide_True by done.
    rewrite freq_increment_fmap by apply NoDup_first_occurrences.
    apply list_fmap_ext. intros i k _. by rewrite occurrences_snoc.
  - rewrite decide_False by done. rewrite fmap_app, fmap_cons, fmap_nil.
    rewrite occurrences_snoc, decide_True, occurrences_not_elem_of by done.
    f_equal. apply list_fmap_ext. intros i k Hk.
    rewrite occurrences_snoc, decide_False; [by rewrite Z.add_0_r|].
    intros <-. apply Hin. apply elem_of_first_occurrences.
    eapply list_elem_of_lookup_2. exact Hk.
Qed.

Lemma foldl_count_result keys results :
  foldl ScagaireDownload.count_result (freq_of keys) results =
  freq_of (keys ++ (gene <$> results)).
Proof.
  revert keys. induction results as [|r rest IH]; intros keys.
  - by rewrite fmap_nil, app_nil_r.
  - rewrite fmap_cons. cbn [foldl].
    rewrite count_result_freq_of, IH, <- app_assoc. reflexivity.
Qed.

Lemma foldl_foldl_count_result keys (lists : list (list AmrResult)) :
  foldl (fun gene_to_freq amr_results =>
           foldl ScagaireDownload.count_result gene_to_freq amr_results)
        (freq_of keys) lists
  = freq_of (keys ++ (gene <$> concat lists)).
Proof.
  revert keys. induction lists as [|results rest IH]; intros keys.
  - by rewrite app_nil_r.
  - cbn [foldl concat]. rewrite foldl_count_result, IH, fmap_app, app_assoc.
    reflexivity.
Qed.
End freq_facts.

(** X20. The frequency of a gene in the table built from the results of all
    assemblies is the number of records bearing that gene over all the
    assemblies together, so a gene found twice in one assembly counts twice;
    the genes stand in the order of their first occurrence. *)
Theorem aggregate_amr_results_counts_records
    (files_to_amr_results : list (string * list AmrResult)) :
  ScagaireDownload.aggregate_amr_results files_to_amr_results =
  freq_of (gene <$> concat files_to_amr_results.*2).
Proof.
  unfold ScagaireDownload.aggregate_amr_results.
  change (@nil (option string * Z)) with (freq_of []).
  by rewrite foldl_foldl_count_result.
Qed.

(** One assembly with geneA predicted on two contigs gives geneA the
    frequency 2. *)
Example aggregate_amr_results_same_assembly :
  ScagaireDownload.aggregate_amr_results
    [("assembly1.fna.gz", [gene_record "geneA"; gene_record "geneA"])]
  = [(Some "geneA", 2%Z)].
Proof. vm_compute. reflexivity. Qed.
